(** * Observability pipeline of the TikTok automation system

    A shallow embedding of the logging and monitoring code
    ([core/logging/logger.py], [core/monitoring/dashboard.py]), of the
    handlers of Python's [logging] package that it registers, and of the
    environment overrides of [core/config/main_config.py], with the
    properties of the queue, the worker and its sinks, the log search, the
    retention sweep, the metric store and its query, and the alert
    manager. Every event of the alert manager, the retention sweep and
    the collection thread goes through [SystemLogger.log_with_details],
    whose call of [Logger.makeRecord] raises [TypeError]; the embedding
    follows the code in this. *)

From Stdlib Require Import Floats ZArith Ascii String List Bool Lia.
From Stdlib Require Import Sorting.Sorted Sorting.Permutation.
From stdpp Require Import gmap strings list pretty.

Set Warnings "-register-all".

Local Open Scope string_scope.
Local Open Scope list_scope.
Local Open Scope Z_scope.

(** ** Shared data *)

(** Python's naive [datetime]: its fields, compared field by field. *)
Record datetime := mk_datetime {
  year : Z; month : Z; day : Z;
  hour : Z; minute : Z; second : Z; microsecond : Z
}.

(** [SystemMetric] of dashboard.py. *)
Record SystemMetric := mk_metric {
  timestamp : datetime;
  metric_name : string;
  metric_value : float;
  unit : string;
  tags : option (list (string * string))
}.

(** [AlertRule] of dashboard.py; [operator] and [severity] are free strings
    in the source. *)
Record AlertRule := mk_rule {
  name : string;
  metric : string;
  operator : string;
  threshold : float;
  severity : string;
  enabled : bool
}.

(** A value of the [details] dictionary handed to the logger. *)
Inductive detail :=
| DStr (s : string)
| DNum (x : float).

(** One call of [system_logger.log_with_details]. *)
Record LogCall := mk_log {
  logger_name : string;
  level : string;
  message : string;
  details : option (list (string * detail))
}.

(** The value stored in [AlertManager.active_alerts]. *)
Record ActiveAlert := mk_alert {
  rule : AlertRule;
  triggered_at : datetime;
  current_value : float
}.

(** ** dashboard.py: AlertRule.check *)

(** The [operators] table: a comparison for each known operator string. *)
Definition operators (op : string) : option (float -> float -> bool) :=
  if String.eqb op ">" then Some (fun x y => PrimFloat.ltb y x)
  else if String.eqb op "<" then Some (fun x y => PrimFloat.ltb x y)
  else if String.eqb op ">=" then Some (fun x y => PrimFloat.leb y x)
  else if String.eqb op "<=" then Some (fun x y => PrimFloat.leb x y)
  else if String.eqb op "==" then Some (fun x y => PrimFloat.eqb x y)
  else None.

Definition check (self : AlertRule) (value : float) : bool :=
  match operators (operator self) with
  | Some cmp => cmp value (threshold self)
  | None => false
  end.
(** ** Exceptions and outcomes *)

(** The exceptions the modelled code meets, all subclasses of Python's
    [Exception]: [queue.Empty], [queue.Full], and any other one with its
    class name and its [str()]. *)
Inductive exn :=
| Empty
| Full
| Exception (cls : string) (text : string).

Definition str_exn (e : exn) : string :=
  match e with
  | Empty | Full => ""
  | Exception _ text => text
  end.

(** A call either returns or raises. *)
Inductive outcome (A : Type) :=
| Ok (a : A)
| Raise (e : exn).
Arguments Ok {A} a.
Arguments Raise {A} e.

#[global] Instance outcome_ret : MRet outcome := fun A a => Ok a.
#[global] Instance outcome_bind : MBind outcome := fun A B f c =>
  match c with
  | Ok a => f a
  | Raise e => Raise e
  end.

(** ** logger.py: records and the bounded queue *)

(** The fields of [logging.LogRecord] that the pipeline reads. *)
Record LogRecord := mk_record {
  record_name : string;
  levelname : string;
  msg : string;
  record_details : option (list (string * detail))
}.

(** Python's [queue.Queue]: [maxsize <= 0] means unbounded. *)
Module Queue.

Record t := mk {
  maxsize : Z;
  items : list LogRecord;
  unfinished_tasks : Z
}.

Definition new (maxsize : Z) : t := mk maxsize [] 0.

Definition qsize (q : t) : Z := Z.of_nat (length (items q)).

Definition put_nowait (item : LogRecord) (q : t) : outcome t :=
  if (0 <? maxsize q) && (maxsize q <=? qsize q) then Raise Full
  else Ok (mk (maxsize q) (items q ++ [item]) (unfinished_tasks q + 1)).

(** [get(timeout=...)]: the head of the queue, or [Empty] once the
    timeout has passed with nothing queued. *)
Definition get (q : t) : outcome (LogRecord * t) :=
  match items q with
  | [] => Raise Empty
  | item :: rest => Ok (item, mk (maxsize q) rest (unfinished_tasks q))
  end.

Definition task_done (q : t) : outcome t :=
  if unfinished_tasks q <=? 0
  then Raise (Exception "ValueError" "task_done() called too many times")
  else Ok (mk (maxsize q) (items q) (unfinished_tasks q - 1)).

End Queue.

Module LogQueueHandler.

(** [emit]: [put_nowait], with [queue.Full] caught and passed over. *)
Definition emit (record : LogRecord) (queue : Queue.t) : outcome Queue.t :=
  match Queue.put_nowait record queue with
  | Ok queue' => Ok queue'
  | Raise Full => Ok queue
  | Raise e => Raise e
  end.

(** The queue after [emit], whatever its outcome. *)
Definition emit_queue (record : LogRecord) (queue : Queue.t) : Queue.t :=
  match emit record queue with
  | Ok queue' => queue'
  | Raise _ => queue
  end.

(** Queue states produced from [Queue(maxsize=C)] by producers calling
    [emit] and the worker taking records out. *)
Inductive reachable (C : Z) : Queue.t -> Prop :=
| reach_new : reachable C (Queue.new C)
| reach_emit (q : Queue.t) (record : LogRecord) :
    reachable C q -> reachable C (emit_queue record q)
| reach_get (q q' : Queue.t) (record : LogRecord) :
    reachable C q -> Queue.get q = Ok (record, q') -> reachable C q'
| reach_task_done (q q' : Queue.t) :
    reachable C q -> Queue.task_done q = Ok q' -> reachable C q'.

End LogQueueHandler.

(** ** logger.py: AsyncLogWorker *)

(** What [logging.Handler.handleError] writes to [sys.stderr] for a
    record a handler failed on: the banner, the traceback of the
    exception, the call stack, and the message and arguments of the
    record. *)
Record ErrorReport := mk_report {
  report_exn : exn;
  report_record : LogRecord
}.

Module AsyncLogWorker.

(** A registered sink: what its [emit] does with a record, namely the
    reports it writes to [sys.stderr] on its own, and [None] for a normal
    return or [Some e] for raising [e]. *)
Record Handler := mk_handler {
  handler_name : string;
  handler_emit : LogRecord -> list ErrorReport * option exn
}.

(** The worker, with what it has produced so far: the records each sink
    took and returned from, oldest first, the lines printed to standard
    output, and the reports the sinks wrote to standard error. *)
Record t := mk {
  log_queue : Queue.t;
  handlers : list Handler;
  running : bool;
  delivered : list (string * LogRecord);
  stdout : list string;
  stderr : list ErrorReport
}.

(** [for handler in self.handlers: handler.emit(record)]: the deliveries
    made, the reports written, and the exception that ended the loop
    early, if any. *)
Fixpoint deliver (hs : list Handler) (record : LogRecord)
  : list (string * LogRecord) * list ErrorReport * option exn :=
  match hs with
  | [] => ([], [], None)
  | h :: hs' =>
      match handler_emit h record with
      | (reports, Some e) => ([], reports, Some e)
      | (reports, None) =>
          let '(done, more, err) := deliver hs' record in
          ((handler_name h, record) :: done, reports ++ more, err)
      end
  end.

(** What the two [except] clauses do with an exception raised in the
    [try] body. *)
Definition handle_exception (e : exn) (out : list string) : list string :=
  match e with
  | Empty => out
  | _ => (out ++ ["Logging worker error: " +:+ str_exn e])
  end.

(** One pass through the body of [while self.running]. *)
Definition iteration (self : t) : t :=
  match Queue.get (log_queue self) with
  | Raise e =>
      mk (log_queue self) (handlers self) (running self) (delivered self)
         (handle_exception e (stdout self)) (stderr self)
  | Ok (record, queue1) =>
      let '(done, reports, err) := deliver (handlers self) record in
      let delivered' := (delivered self ++ done) in
      let stderr' := (stderr self ++ reports) in
      match err with
      | Some e =>
          mk queue1 (handlers self) (running self) delivered'
             (handle_exception e (stdout self)) stderr'
      | None =>
          match Queue.task_done queue1 with
          | Ok queue2 =>
              mk queue2 (handlers self) (running self) delivered'
                 (stdout self) stderr'
          | Raise e =>
              mk queue1 (handlers self) (running self) delivered'
                 (handle_exception e (stdout self)) stderr'
          end
      end
  end.

(** [run], for at most [fuel] passes of the loop. *)
Fixpoint run (fuel : nat) (self : t) : t :=
  match fuel with
  | O => self
  | S fuel' => if running self then run fuel' (iteration self) else self
  end.

Definition stop (self : t) : t :=
  mk (log_queue self) (handlers self) false (delivered self) (stdout self)
     (stderr self).

End AsyncLogWorker.

(** ** The handlers of the [logging] package that the worker serves *)

Module Logging.





End Logging.

(** The two sinks of [_setup_logging]. *)
Inductive sink := FileSink | ConsoleSink.

(** The handler list of [_setup_logging]: the file handler first, then
    the console handler, each if it is enabled. *)
Definition setup_sinks (enable_file enable_console : bool) : list sink :=
  (if enable_file then [FileSink] else [])
  ++ (if enable_console then [ConsoleSink] else []).




(** ** Dates, times and their text forms *)

Definition datetime_fields (d : datetime) : list Z :=
  [year d; month d; day d; hour d; minute d; second d; microsecond d].

Fixpoint lex_compare (a b : list Z) : comparison :=
  match a, b with
  | [], [] => Eq
  | [], _ :: _ => Lt
  | _ :: _, [] => Gt
  | x :: a', y :: b' =>
      match x ?= y with
      | Eq => lex_compare a' b'
      | c => c
      end
  end.

(** The order of Python's naive [datetime] values. *)
Definition datetime_compare (a b : datetime) : comparison :=
  lex_compare (datetime_fields a) (datetime_fields b).

Definition datetime_ltb (a b : datetime) : bool :=
  match datetime_compare a b with Lt => true | _ => false end.

Definition datetime_leb (a b : datetime) : bool :=
  match datetime_compare a b with Gt => false | _ => true end.

(** The values a [datetime] can hold (years 1 to 9999); days are bounded
    by 31 here, the length of the month plays no part below. *)
Definition valid_datetime (d : datetime) : Prop :=
  1 <= year d <= 9999 /\ 1 <= month d <= 12 /\ 1 <= day d <= 31 /\
  0 <= hour d <= 23 /\ 0 <= minute d <= 59 /\ 0 <= second d <= 59 /\
  0 <= microsecond d <= 999999.

Definition digit (n : Z) : ascii :=
  ascii_of_N (Z.to_N (48 + n mod 10)).

(** ["%0<width>d"] for [0 <= n < 10 ^ width]. *)
Fixpoint zpad (width : nat) (n : Z) : string :=
  match width with
  | O => ""
  | S w => String (digit (n / 10 ^ Z.of_nat w)) (zpad w (n mod 10 ^ Z.of_nat w))
  end.

Definition date_text (d : datetime) : string :=
  zpad 4 (year d) +:+ "-" +:+ zpad 2 (month d) +:+ "-" +:+ zpad 2 (day d).

Definition time_text (d : datetime) : string :=
  zpad 2 (hour d) +:+ ":" +:+ zpad 2 (minute d) +:+ ":" +:+ zpad 2 (second d).

(** [datetime.isoformat()] of a naive value. *)
Definition isoformat (d : datetime) : string :=
  date_text d +:+ "T" +:+ time_text d +:+
  (if microsecond d =? 0 then "" else "." +:+ zpad 6 (microsecond d)).

(** [needle in haystack] on Python strings. *)
Fixpoint contains (needle haystack : string) : bool :=
  String.prefix needle haystack ||
  match haystack with
  | EmptyString => false
  | String _ rest => contains needle rest
  end.
(** ** The clock and SQLite's date arithmetic *)

(** Days since 1970-01-01 of a date of the proleptic Gregorian calendar. *)
Definition days_from_civil (y m d : Z) : Z :=
  let y' := if m <=? 2 then y - 1 else y in
  let era := y' / 400 in
  let yoe := y' - era * 400 in
  let mp := (m + 9) mod 12 in
  let doy := (153 * mp + 2) / 5 + d - 1 in
  let doe := yoe * 365 + yoe / 4 - yoe / 100 + doy in
  era * 146097 + doe - 719468.

(** The date that lies [z] days after 1970-01-01. *)
Definition civil_from_days (z : Z) : Z * Z * Z :=
  let z' := z + 719468 in
  let era := z' / 146097 in
  let doe := z' - era * 146097 in
  let yoe := (doe - doe / 1460 + doe / 36524 - doe / 146096) / 365 in
  let doy := doe - (365 * yoe + yoe / 4 - yoe / 100) in
  let mp := (5 * doy + 2) / 153 in
  let d := doy - (153 * mp + 2) / 5 + 1 in
  let m := if mp <? 10 then mp + 3 else mp - 9 in
  let y := yoe + era * 400 in
  (if m <=? 2 then y + 1 else y, m, d).

Definition to_microseconds (t : datetime) : Z :=
  (((days_from_civil (year t) (month t) (day t) * 24 + hour t) * 60
    + minute t) * 60 + second t) * 1000000 + microsecond t.

Definition from_microseconds (us : Z) : datetime :=
  let secs := us / 1000000 in
  let days := secs / 86400 in
  let rem := secs mod 86400 in
  let '(y, m, d) := civil_from_days days in
  mk_datetime y m d (rem / 3600) (rem mod 3600 / 60) (rem mod 60)
    (us mod 1000000).

(** The instant [hours] hours before [now]. *)
Definition hours_before (now : datetime) (hours : Z) : datetime :=
  from_microseconds (to_microseconds now - hours * 3600 * 1000000).

(** Python's [datetime] with its [tzinfo]: the fields, and the offset
    from UTC in microseconds for an aware value, [None] for a naive
    one. *)
Record tz_datetime := mk_tz {
  local : datetime;
  utcoffset : option Z
}.

Definition naive (d : datetime) : tz_datetime := mk_tz d None.

(** The comparison behind [<] and [>] on [datetime]: two naive values
    and two aware values of one offset compare by their fields, two
    aware values of different offsets by their instants, and a naive
    value against an aware one is a [TypeError]. *)
Definition tz_compare (a b : tz_datetime) : outcome comparison :=
  match utcoffset a, utcoffset b with
  | None, None => Ok (datetime_compare (local a) (local b))
  | Some x, Some y =>
      if x =? y then Ok (datetime_compare (local a) (local b))
      else Ok (to_microseconds (local a) - x ?= to_microseconds (local b) - y)
  | _, _ =>
      Raise (Exception "TypeError"
               "can't compare offset-naive and offset-aware datetimes")
  end.

(** [a < b] *)
Definition tz_lt (a b : tz_datetime) : outcome bool :=
  c ← tz_compare a b;
  mret (match c with Lt => true | _ => false end).

(** [a > b] *)
Definition tz_gt (a b : tz_datetime) : outcome bool :=
  c ← tz_compare a b;
  mret (match c with Gt => true | _ => false end).

(** [str.upper] on ASCII text. *)
Definition upper_char (c : ascii) : ascii :=
  let n := nat_of_ascii c in
  if (Nat.leb 97 n && Nat.leb n 122)%bool then ascii_of_nat (n - 32) else c.

Fixpoint upper_ascii (s : string) : string :=
  match s with
  | String c rest => String (upper_char c) (upper_ascii rest)
  | EmptyString => EmptyString
  end.


(** ** logger.py: SystemLogger *)

(** What [json.loads] returns. *)
Inductive json :=
| JNull
| JBool (b : bool)
| JInt (n : Z)
| JFloat (x : float)
| JStr (s : string)
| JList (elements : list json)
| JDict (fields : list (string * json)).

Definition type_name (v : json) : string :=
  match v with
  | JNull => "NoneType"
  | JBool _ => "bool"
  | JInt _ => "int"
  | JFloat _ => "float"
  | JStr _ => "str"
  | JList _ => "list"
  | JDict _ => "dict"
  end.

Fixpoint assoc {A : Type} (key : string) (fields : list (string * A))
  : option A :=
  match fields with
  | [] => None
  | (k, v) :: rest => if String.eqb k key then Some v else assoc key rest
  end.

Definition no_attribute (v : json) (attr : string) : exn :=
  Exception "AttributeError"
    ("'" +:+ type_name v +:+ "' object has no attribute '" +:+ attr +:+ "'").

(** [entry.get(key, default)] *)
Definition dict_get (entry : json) (key : string) (default : option json)
  : outcome (option json) :=
  match entry with
  | JDict fields =>
      Ok (match assoc key fields with Some v => Some v | None => default end)
  | _ => Raise (no_attribute entry "get")
  end.

(** [entry[key]] for a string key *)
Definition getitem (entry : json) (key : string) : outcome json :=
  match entry with
  | JDict fields =>
      match assoc key fields with
      | Some v => Ok v
      | None => Raise (Exception "KeyError" ("'" +:+ key +:+ "'"))
      end
  | JStr _ =>
      Raise (Exception "TypeError" "string indices must be integers")
  | JList _ =>
      Raise (Exception "TypeError" "list indices must be integers or slices")
  | _ =>
      Raise (Exception "TypeError"
               ("'" +:+ type_name entry +:+ "' object is not subscriptable"))
  end.

(** A file of the log directory: its name, size, last-modified time, and
    the error [unlink] meets on it, if any. *)
Record LogFile := mk_file {
  file_name : string;
  st_size : Z;
  st_mtime : float;
  unlink_error : option exn
}.

(** What reading a text file line by line yields: the lines, and the
    exception that ends the reading, if any ([open] failing, or a chunk
    of the file that does not decode). *)
Record reading := mk_reading {
  yielded : list string;
  failure : option exn
}.

Module SystemLogger.

Record t := mk {
  loggers : gset string;
  log_queue : Queue.t
}.

(** [__init__]: no loggers yet, [queue.Queue(maxsize=1000)]. *)
Definition init : t := mk ∅ (Queue.new 1000).

Definition get_logger (name : string) (self : t) : t :=
  mk ({[name]} ∪ loggers self) (log_queue self).

(** [logger.handle(record)]: the root logger's only handler is the
    queue handler. *)
Definition handle (record : LogRecord) (self : t) : outcome t :=
  queue' ← LogQueueHandler.emit record (log_queue self);
  mret (mk (loggers self) queue').

Record Stats := mk_stats {
  total_loggers : nat;
  queue_size : Z;
  log_files : list (string * Z * float)
}.

(** Python's [pathlib] pattern ["*.log*"]: any name holding [".log"]. *)
Definition glob_log (name : string) : bool := contains ".log" name.

Definition get_log_stats (dir : list LogFile) (self : t) : Stats :=
  mk_stats (size (loggers self)) (Queue.qsize (log_queue self))
    (map (fun f => (file_name f, st_size f, st_mtime f))
         (filter (fun f => glob_log (file_name f) = true) dir)).

(** *** log_with_details *)

(** The names the [logging] module defines that are their own upper
    case: the level constants and two more. *)
Definition logging_names : list string :=
  ["BASIC_FORMAT"; "CRITICAL"; "DEBUG"; "ERROR"; "FATAL"; "INFO"; "NOTSET";
   "WARN"; "WARNING"; "_STYLES"].

(** [getattr(logging, name)]: the exception it raises, if any. The value
    it returns plays no part, see [log_with_details]. *)
Definition logging_getattr (name : string) : option exn :=
  if existsb (String.eqb name) logging_names then None
  else Some (Exception "AttributeError"
               ("module 'logging' has no attribute '" +:+ name +:+ "'")).

(** The parameters of [Logger.makeRecord] after [self]:
    [name, level, fn, lno, msg, args, exc_info, func=None, extra=None,
    sinfo=None]. *)
Definition makeRecord_parameters : list string :=
  ["name"; "level"; "fn"; "lno"; "msg"; "args"; "exc_info"; "func"; "extra";
   "sinfo"].

(** The keywords of the call
    [logger.makeRecord(logger.name, <level>, pathname='', lineno=0,
    msg=message, args=(), exc_info=None)], which come after its two
    positional arguments. *)
Definition makeRecord_keywords : list string :=
  ["pathname"; "lineno"; "msg"; "args"; "exc_info"].

(** Binding the arguments of that call fails: on the first keyword that
    names no parameter, and otherwise on [fn] and [lno], which are given
    no argument. *)
Definition makeRecord_error : exn :=
  match List.find
          (fun k => negb (existsb (String.eqb k) makeRecord_parameters))
          makeRecord_keywords with
  | Some k =>
      Exception "TypeError"
        ("Logger.makeRecord() got an unexpected keyword argument '"
         +:+ k +:+ "'")
  | None =>
      Exception "TypeError"
        ("Logger.makeRecord() missing 2 required positional arguments: "
         +:+ "'fn' and 'lno'")
  end.

(** [log_with_details]: [get_logger] registers the name, the level is
    looked up in the [logging] module, and the call of [makeRecord]
    raises while its arguments are bound. The statements after that call
    (setting [details], [user_id] and [session_id] on the record and
    [logger.handle(record)]) are never reached, so no call returns and
    none creates a record; [user_id] and [session_id] play no part. *)
Definition log_with_details (call : LogCall) (self : t)
  : t * outcome Datatypes.unit :=
  let self1 := get_logger (logger_name call) self in
  match logging_getattr (upper_ascii (level call)) with
  | Some e => (self1, Raise e)
  | None => (self1, Raise makeRecord_error)
  end.

(** [log_system_event(event_type, message, details)]; [event_type] is
    not used. *)
Definition log_system_event (event_type message : string)
    (details : option (list (string * detail))) (self : t)
  : t * outcome Datatypes.unit :=
  log_with_details (mk_log "system" "INFO" message details) self.

(** *** cleanup_old_logs *)

(** Python's conversion of an [int] to a [float]: rounded to nearest,
    [OverflowError] beyond the range of floats. *)
Definition float_of_int (n : Z) : outcome float :=
  let x := SF2Prim (binary_normalize prec emax n 0 false) in
  if PrimFloat.is_infinity x
  then Raise (Exception "OverflowError" "int too large to convert to float")
  else Ok x.

(** [time.time() - (days_to_keep * 24 * 60 * 60)] *)
Definition cutoff_time (now : float) (days_to_keep : Z) : outcome float :=
  seconds ← float_of_int (days_to_keep * 24 * 60 * 60);
  mret (PrimFloat.sub now seconds).

Definition is_old (cutoff : float) (f : LogFile) : bool :=
  glob_log (file_name f) && PrimFloat.ltb (st_mtime f) cutoff.

(** The sweep so far: the files gone through that are still there, the
    count, and the logger. *)
Record Sweep := mk_sweep {
  remaining : list LogFile;
  cleaned_count : Z;
  logger : t
}.

(** The body of the [try]: [unlink], the count, [log_system_event]. *)
Definition unlink_and_log (f : LogFile) (acc : Sweep)
  : Sweep * outcome Datatypes.unit :=
  match unlink_error f with
  | Some e =>
      (mk_sweep (remaining acc ++ [f]) (cleaned_count acc) (logger acc),
       Raise e)
  | None =>
      let '(logger1, logged) :=
        log_system_event "cleanup"
          ("Deleted old log file: " +:+ file_name f) None (logger acc) in
      (mk_sweep (remaining acc) (cleaned_count acc + 1) logger1, logged)
  end.

(** The body of [except Exception as e]. *)
Definition log_unlink_failure (f : LogFile) (e : exn) (acc : Sweep)
  : Sweep * outcome Datatypes.unit :=
  let '(logger1, logged) :=
    log_with_details
      (mk_log "system" "ERROR"
         ("Failed to delete log file: " +:+ file_name f)
         (Some [("error", DStr (str_exn e))]))
      (logger acc) in
  (mk_sweep (remaining acc) (cleaned_count acc) logger1, logged).

(** The loop over [log_dir.glob("*.log*")], in directory order; an
    exception that leaves the handler leaves the loop, and the files not
    yet looked at stay as they are. *)
Fixpoint sweep (cutoff : float) (dir : list LogFile) (acc : Sweep)
  : Sweep * outcome Datatypes.unit :=
  match dir with
  | [] => (acc, Ok tt)
  | f :: rest =>
      if is_old cutoff f then
        match unlink_and_log f acc with
        | (acc1, Ok _) => sweep cutoff rest acc1
        | (acc1, Raise e) =>
            match log_unlink_failure f e acc1 with
            | (acc2, Ok _) => sweep cutoff rest acc2
            | (acc2, Raise e') =>
                (mk_sweep (remaining acc2 ++ rest) (cleaned_count acc2)
                   (logger acc2),
                 Raise e')
            end
        end
      else
        sweep cutoff rest
          (mk_sweep (remaining acc ++ [f]) (cleaned_count acc) (logger acc))
  end.

(** [cleanup_old_logs]: the directory and the logger it leaves, and the
    count it returns or the exception it raises. *)
Definition cleanup_old_logs (now : float) (days_to_keep : Z)
    (dir : list LogFile) (self : t) : list LogFile * t * outcome Z :=
  match cutoff_time now days_to_keep with
  | Raise e => (dir, self, Raise e)
  | Ok cutoff =>
      match sweep cutoff dir (mk_sweep [] 0 self) with
      | (s, Raise e) => (remaining s, logger s, Raise e)
      | (s, Ok _) =>
          if 0 <? cleaned_count s then
            match log_system_event "cleanup"
                    ("Cleaned up " +:+ pretty (cleaned_count s)
                     +:+ " old log files") None (logger s) with
            | (logger1, Ok _) => (remaining s, logger1, Ok (cleaned_count s))
            | (logger1, Raise e) => (remaining s, logger1, Raise e)
            end
          else (remaining s, logger s, Ok (cleaned_count s))
      end
  end.

(** *** search_logs *)

Section search.

(** The library functions the search calls: [str.strip], [json.loads],
    [str.lower] and [datetime.fromisoformat]; the second and the fourth
    return or raise. *)
Variable strip : string -> string.
Variable json_loads : string -> outcome json.
Variable lower : string -> string.
Variable fromisoformat : string -> outcome tz_datetime.

(** A [level] of [None] or [""] switches the filter off. *)
Definition truthy (level : option string) : option string :=
  match level with
  | Some "" => None
  | other => other
  end.

(** [entry.get('level') != level] *)
Definition differs (v : option json) (level : string) : bool :=
  match v with
  | Some (JStr s) => negb (String.eqb s level)
  | _ => true
  end.

(** [datetime.fromisoformat(entry['timestamp'])] *)
Definition entry_time (entry : json) : outcome tz_datetime :=
  v ← getitem entry "timestamp";
  match v with
  | JStr s => fromisoformat s
  | _ => Raise (Exception "TypeError"
                  "fromisoformat: argument must be str")
  end.

(** [entry.get('message', '').lower()] *)
Definition message_lower (entry : json) : outcome string :=
  v ← dict_get entry "message" (Some (JStr ""));
  match v with
  | Some (JStr s) => Ok (lower s)
  | Some other => Raise (no_attribute other "lower")
  | None => Raise (no_attribute JNull "lower")
  end.

(** The filters of the loop body: [Ok true] appends the entry,
    [Ok false] moves on to the next line. *)
Definition keep (query : string) (start_time end_time : option tz_datetime)
    (level : option string) (entry : json) : outcome bool :=
  wrong_level ← match truthy level with
                | Some l =>
                    v ← dict_get entry "level" None; mret (differs v l)
                | None => mret false
                end;
  if (wrong_level : bool) then mret false else
  too_early ← match start_time with
              | Some t0 => t ← entry_time entry; tz_lt t t0
              | None => mret false
              end;
  if (too_early : bool) then mret false else
  too_late ← match end_time with
             | Some t1 => t ← entry_time entry; tz_gt t t1
             | None => mret false
             end;
  if (too_late : bool) then mret false else
  text ← message_lower entry;
  mret (contains (lower query) text).

(** The body of the inner [try] for one line: the entry to append, if
    any. *)
Definition examine (query : string) (start_time end_time : option tz_datetime)
    (level : option string) (line : string) : outcome (option json) :=
  entry ← json_loads (strip line);
  kept ← keep query start_time end_time level entry;
  mret (if (kept : bool) then Some entry else None).

(** [except json.JSONDecodeError] *)
Definition is_decode_error (e : exn) : bool :=
  match e with
  | Exception cls _ => String.eqb cls "JSONDecodeError"
  | _ => false
  end.

(** [for line in f: ...], with the matches so far; the exception is the
    one that leaves the loop for the outer [except]. *)
Fixpoint scan (query : string) (start_time end_time : option tz_datetime)
    (level : option string) (lines : list string) (results : list json)
  : list json * option exn :=
  match lines with
  | [] => (results, None)
  | line :: rest =>
      match examine query start_time end_time level line with
      | Ok (Some entry) =>
          scan query start_time end_time level rest (results ++ [entry])
      | Ok None => scan query start_time end_time level rest results
      | Raise e =>
          if is_decode_error e
          then scan query start_time end_time level rest results
          else (results, Some e)
      end
  end.

(** [search_logs]: the list it returns, and the exception its outer
    [except] logs, if any. [log_file] is [None] when [system.log] does
    not exist. *)
Definition search_logs (log_file : option reading) (query : string)
    (start_time end_time : option tz_datetime) (level : option string)
  : list json * option exn :=
  match log_file with
  | None => ([], None)
  | Some f =>
      match scan query start_time end_time level (yielded f) [] with
      | (results, Some e) => (results, Some e)
      | (results, None) => (results, failure f)
      end
  end.

End search.

End SystemLogger.


(** ** dashboard.py: AlertManager *)

Module AlertManager.

Record t := mk {
  rules : list AlertRule;
  active_alerts : gmap string ActiveAlert
}.

(** [f"{rule.name}_{rule.metric}"] *)
Definition alert_key (r : AlertRule) : string :=
  name r +:+ "_" +:+ metric r.

Definition trigger_level (r : AlertRule) : string :=
  if String.eqb (severity r) "warning" then "WARNING" else "CRITICAL".

(** The arguments [_trigger_alert] hands to [log_with_details]. *)
Definition trigger_event (r : AlertRule) (m : SystemMetric) : LogCall :=
  mk_log "alerts" (trigger_level r) ("Alert triggered: " +:+ name r)
    (Some [("rule", DStr (name r)); ("metric", DStr (metric r));
           ("threshold", DNum (threshold r));
           ("current_value", DNum (metric_value m));
           ("severity", DStr (severity r))]).

(** The arguments [_resolve_alert] hands to [log_with_details]. *)
Definition resolve_event (r : AlertRule) (m : SystemMetric) : LogCall :=
  mk_log "alerts" "INFO" ("Alert resolved: " +:+ name r)
    (Some [("rule", DStr (name r)); ("metric", DStr (metric r));
           ("current_value", DNum (metric_value m))]).

(** A method of the alert manager leaves the manager, and the system
    logger with what its last call of the logger came to. *)
Definition result : Type := t * (SystemLogger.t * outcome Datatypes.unit).

(** [_trigger_alert]: the entry is stored, then the logger is called. *)
Definition _trigger_alert (r : AlertRule) (m : SystemMetric) (self : t)
    (logger : SystemLogger.t) : result :=
  match active_alerts self !! alert_key r with
  | None =>
      (mk (rules self)
          (<[alert_key r := mk_alert r (timestamp m) (metric_value m)]>
             (active_alerts self)),
       SystemLogger.log_with_details (trigger_event r m) logger)
  | Some _ => (self, (logger, Ok tt))
  end.

(** [_resolve_alert]: the entry is deleted, then the logger is called. *)
Definition _resolve_alert (r : AlertRule) (m : SystemMetric) (self : t)
    (logger : SystemLogger.t) : result :=
  match active_alerts self !! alert_key r with
  | Some _ =>
      (mk (rules self) (delete (alert_key r) (active_alerts self)),
       SystemLogger.log_with_details (resolve_event r m) logger)
  | None => (self, (logger, Ok tt))
  end.

(** The body of the inner loop of [check_alerts]. *)
Definition check_rule (r : AlertRule) (m : SystemMetric) (self : t)
    (logger : SystemLogger.t) : result :=
  if negb (enabled r) then (self, (logger, Ok tt))
  else if String.eqb (metric r) (metric_name m) then
    if check r (metric_value m) then _trigger_alert r m self logger
    else _resolve_alert r m self logger
  else (self, (logger, Ok tt)).

(** [for rule in self.rules: ...]; an exception leaves the loop. *)
Fixpoint check_rules (rs : list AlertRule) (m : SystemMetric) (self : t)
    (logger : SystemLogger.t) : result :=
  match rs with
  | [] => (self, (logger, Ok tt))
  | r :: rs' =>
      match check_rule r m self logger with
      | (self1, (logger1, Ok _)) => check_rules rs' m self1 logger1
      | raised => raised
      end
  end.

(** [for metric in metrics: for rule in self.rules: ...]; nothing in
    [check_alerts] catches an exception. *)
Fixpoint check_alerts (metrics : list SystemMetric) (self : t)
    (logger : SystemLogger.t) : result :=
  match metrics with
  | [] => (self, (logger, Ok tt))
  | m :: ms =>
      match check_rules (rules self) m self logger with
      | (self1, (logger1, Ok _)) => check_alerts ms self1 logger1
      | raised => raised
      end
  end.

(** [__init__] with a given rule list in place of the default one. *)
Definition init (rs : list AlertRule) : t := mk rs ∅.

(** The states the manager is left in by any sequence of [check_alerts]
    calls, whether they return or raise. *)
Inductive reachable (rs : list AlertRule) : t -> Prop :=
| reach_init : reachable rs (init rs)
| reach_check (self : t) (metrics : list SystemMetric)
    (logger : SystemLogger.t) :
    reachable rs self -> reachable rs (check_alerts metrics self logger).1.

End AlertManager.

(** The first and last instants SQLite's date functions work with. *)
Definition sqlite_in_range (t : datetime) : bool :=
  datetime_leb (mk_datetime (-4713) 11 24 12 0 0 0) t && (year t <=? 9999).

(** SQLite's ["YYYY-MM-DD HH:MM:SS"]: no fraction of a second, a blank
    between date and time. *)
Definition sqlite_text (t : datetime) : string :=
  (if year t <? 0 then "-" +:+ zpad 4 (- year t) else zpad 4 (year t))
  +:+ "-" +:+ zpad 2 (month t) +:+ "-" +:+ zpad 2 (day t)
  +:+ " " +:+ time_text t.

(** [datetime('now', '-{} hours'.format(hours))] at clock time [now]:
    [None] is SQL's NULL, for the malformed modifier a negative [hours]
    yields (['--5 hours']) and for instants out of range. *)
Definition sqlite_datetime (now : datetime) (hours : Z) : option string :=
  if hours <? 0 then None
  else
    let t := hours_before now hours in
    if sqlite_in_range t then Some (sqlite_text t) else None.

(** ** dashboard.py: MetricsCollector *)

(** A row of the [metrics] table. *)
Record Row := mk_row {
  id : Z;
  row_timestamp : string;
  row_metric_name : string;
  row_metric_value : float;
  row_unit : string;
  row_tags : option string
}.

(** What a method does to the collection thread. *)
Inductive effect :=
| ThreadStart (interval : Z) (daemon : bool)
| ThreadJoin (interval : Z) (timeout : Z).

Module MetricsCollector.

(** The state of the collector: the [metrics] table in insertion order
    with its [AUTOINCREMENT] counter, the [running] flag, and the
    interval the collection thread was created with, if there is one. *)
Record t := mk {
  rows : list Row;
  last_id : Z;
  running : bool;
  thread : option Z
}.

Definition init : t := mk [] 0 false None.

(** What SQLite keeps of a float bound to the column
    [metric_value REAL NOT NULL]: NaN is bound as NULL, which the column
    refuses, and a value without a fraction is kept as an integer, which
    turns the negative zero into zero; every other value is kept as it
    is. *)
Definition sqlite_real (x : float) : option float :=
  if PrimFloat.is_nan x then None
  else if PrimFloat.eqb x 0 then Some 0%float
  else Some x.

Section store.

(** [json.dumps] on a dictionary of strings. *)
Variable json_dumps : list (string * string) -> string.

(** [json.dumps(metric.tags) if metric.tags else None] *)
Definition tags_json (tags : option (list (string * string)))
  : option string :=
  match tags with
  | None | Some [] => None
  | Some kv => Some (json_dumps kv)
  end.

(** One [INSERT]. *)
Definition insert (m : SystemMetric) (self : t) : outcome t :=
  match sqlite_real (metric_value m) with
  | None =>
      Raise (Exception "IntegrityError"
               "NOT NULL constraint failed: metrics.metric_value")
  | Some value =>
      Ok (mk (rows self
              ++ [mk_row (last_id self + 1) (isoformat (timestamp m))
                    (metric_name m) value (unit m) (tags_json (tags m))])
             (last_id self + 1) (running self) (thread self))
  end.

(** [for metric in metrics: conn.execute(...)] *)
Fixpoint insert_all (metrics : list SystemMetric) (self : t) : outcome t :=
  match metrics with
  | [] => Ok self
  | m :: ms => self1 ← insert m self; insert_all ms self1
  end.

(** [store_metrics]: the [with] block commits the inserts, or rolls all
    of them back when one raises; the exception is caught and logged at
    ERROR through the logger ["metrics"]. The result is the collector
    and the message logged, if any. The database file itself is taken to
    work. *)
Definition store_metrics (metrics : list SystemMetric) (self : t)
  : t * option string :=
  match insert_all metrics self with
  | Ok self' => (self', None)
  | Raise e => (self, Some ("Metric storage failed: " +:+ str_exn e))
  end.

End store.

(** [WHERE metric_name = ? AND timestamp > <cutoff>]: both sides of the
    second test are TEXT, compared byte by byte. *)
Definition selected (metric_name cutoff : string) (r : Row) : bool :=
  String.eqb (row_metric_name r) metric_name
  && String.ltb cutoff (row_timestamp r).

(** [ORDER BY timestamp DESC], as an insertion sort. *)
Fixpoint insert_desc (r : Row) (sorted : list Row) : list Row :=
  match sorted with
  | [] => [r]
  | x :: rest =>
      if String.leb (row_timestamp x) (row_timestamp r)
      then r :: x :: rest
      else x :: insert_desc r rest
  end.

Definition order_by_timestamp_desc (l : list Row) : list Row :=
  fold_right insert_desc [] l.

(** [get_metrics] when SQLite's clock reads [now]. *)
Definition get_metrics (now : datetime) (metric_name : string) (hours : Z)
    (self : t) : list Row :=
  match sqlite_datetime now hours with
  | None => []
  | Some cutoff =>
      order_by_timestamp_desc
        (List.filter (selected metric_name cutoff) (rows self))
  end.

(** [start_collection]: the collector, what happens to the thread, and
    the system logger with what the closing [log_system_event] came
    to. *)
Definition start_collection (interval : Z) (self : t)
    (logger : SystemLogger.t)
  : t * list effect * (SystemLogger.t * outcome Datatypes.unit) :=
  if running self then (self, [], (logger, Ok tt))
  else
    (mk (rows self) (last_id self) true (Some interval),
     [ThreadStart interval true],
     SystemLogger.log_system_event "monitoring" "Started metrics collection"
       None logger).

Definition stop_collection (self : t) (logger : SystemLogger.t)
  : t * list effect * (SystemLogger.t * outcome Datatypes.unit) :=
  (mk (rows self) (last_id self) false (thread self),
   match thread self with
   | Some interval => [ThreadJoin interval 5]
   | None => []
   end,
   SystemLogger.log_system_event "monitoring" "Stopped metrics collection"
     None logger).

End MetricsCollector.


(** * Properties *)

(** ** The call that every event goes through *)

(** The exception a call of [log_with_details] ends in when its level is
    a level name of the [logging] module. *)
Definition unexpected_pathname : exn :=
  Exception "TypeError"
    "Logger.makeRecord() got an unexpected keyword argument 'pathname'".

Lemma log_with_details_level call logger :
  In (level call) ["INFO"; "WARNING"; "ERROR"; "CRITICAL"] ->
  SystemLogger.log_with_details call logger
  = (SystemLogger.get_logger (logger_name call) logger,
     Raise unexpected_pathname).
Proof.
  unfold SystemLogger.log_with_details.
  intros [<- | [<- | [<- | [<- | []]]]]; reflexivity.
Qed.

Lemma log_trigger r m logger :
  SystemLogger.log_with_details (AlertManager.trigger_event r m) logger
  = (SystemLogger.get_logger "alerts" logger,
     Raise unexpected_pathname).
Proof.
  apply (log_with_details_level (AlertManager.trigger_event r m)).
  simpl. unfold AlertManager.trigger_level.
  destruct (String.eqb (severity r) "warning"); tauto.
Qed.

Lemma log_resolve r m logger :
  SystemLogger.log_with_details (AlertManager.resolve_event r m) logger
  = (SystemLogger.get_logger "alerts" logger,
     Raise unexpected_pathname).
Proof.
  apply (log_with_details_level (AlertManager.resolve_event r m)).
  simpl. tauto.
Qed.

(** ** The alert manager *)

Definition high_memory : AlertRule :=
  mk_rule "High Memory" "system.memory_usage" ">" 80 "warning" true.

Definition memory_sample (ts : datetime) (v : float) : SystemMetric :=
  mk_metric ts "system.memory_usage" v "percent" None.

(** What the evaluation of a rule [r] against a sample [m] of its metric
    does to the manager when it does anything: a trigger stores the
    alert under a key that is free, a resolve deletes the entry under a
    key that is taken. *)
Inductive transition (self : AlertManager.t) (r : AlertRule)
    (m : SystemMetric) : AlertManager.t -> Prop :=
| trigger_transition :
    AlertManager.active_alerts self !! AlertManager.alert_key r = None ->
    check r (metric_value m) = true ->
    transition self r m
      (AlertManager.mk (AlertManager.rules self)
         (<[AlertManager.alert_key r
            := mk_alert r (timestamp m) (metric_value m)]>
            (AlertManager.active_alerts self)))
| resolve_transition :
    is_Some (AlertManager.active_alerts self !! AlertManager.alert_key r) ->
    check r (metric_value m) = false ->
    transition self r m
      (AlertManager.mk (AlertManager.rules self)
         (delete (AlertManager.alert_key r)
            (AlertManager.active_alerts self))).

(** The result of a method of the manager that made a transition: the
    logger has the name "alerts" registered and the call of
    [log_with_details] has raised. *)
Definition aborted (self' : AlertManager.t) (logger : SystemLogger.t)
  : AlertManager.result :=
  (self', (SystemLogger.get_logger "alerts" logger,
           Raise unexpected_pathname)).

Definition unchanged (self : AlertManager.t) (logger : SystemLogger.t)
  : AlertManager.result :=
  (self, (logger, Ok tt)).

Lemma check_rule_cases r m self logger :
  AlertManager.check_rule r m self logger = unchanged self logger \/
  (enabled r = true /\ metric r = metric_name m /\
   exists self',
     transition self r m self' /\
     AlertManager.check_rule r m self logger = aborted self' logger).
Proof.
  unfold AlertManager.check_rule.
  destruct (enabled r) eqn:En; simpl; [| by left].
  destruct (String.eqb_spec (metric r) (metric_name m)) as [Em | Em];
    [| by left].
  destruct (check r (metric_value m)) eqn:Ec.
  - unfold AlertManager._trigger_alert.
    destruct (AlertManager.active_alerts self !! AlertManager.alert_key r)
      eqn:E; [by left |].
    right. repeat split; try done. eexists. split.
    + by apply trigger_transition.
    + by rewrite log_trigger.
  - unfold AlertManager._resolve_alert.
    destruct (AlertManager.active_alerts self !! AlertManager.alert_key r)
      eqn:E; [| by left].
    right. repeat split; try done. eexists. split.
    + apply resolve_transition; [by rewrite E | done].
    + by rewrite log_resolve.
Qed.

Lemma check_rules_cases rs m self logger :
  AlertManager.check_rules rs m self logger = unchanged self logger \/
  exists r self',
    In r rs /\ enabled r = true /\ metric r = metric_name m /\
    transition self r m self' /\
    AlertManager.check_rules rs m self logger = aborted self' logger.
Proof.
  induction rs as [| r rs IH]; [by left |]. simpl.
  destruct (check_rule_cases r m self logger)
    as [-> | (En & Em & self' & Ht & ->)].
  - unfold unchanged in *. cbn iota beta.
    destruct IH as [-> | (r' & self' & Hin & En & Em & Ht & ->)];
      [by left |].
    right. exists r', self'. repeat split; try done. by right.
  - right. exists r, self'. repeat split; try done. by left.
Qed.

Lemma transition_rules self r m self' :
  transition self r m self' ->
  AlertManager.rules self' = AlertManager.rules self.
Proof. by destruct 1. Qed.

Lemma check_alerts_cases ms self logger :
  AlertManager.check_alerts ms self logger = unchanged self logger \/
  exists r m self',
    In r (AlertManager.rules self) /\ In m ms /\
    enabled r = true /\ metric r = metric_name m /\
    transition self r m self' /\
    AlertManager.check_alerts ms self logger = aborted self' logger.
Proof.
  induction ms as [| m ms IH]; [by left |]. simpl.
  destruct (check_rules_cases (AlertManager.rules self) m self logger)
    as [-> | (r & self' & Hin & En & Em & Ht & ->)].
  - unfold unchanged in *. cbn iota beta.
    destruct IH as [-> | (r & m' & self' & Hin & Hm & En & Em & Ht & ->)];
      [by left |].
    right. exists r, m', self'. repeat split; try done. by right.
  - right. exists r, m, self'. repeat split; try done. by left.
Qed.

(** Every entry of the active-alert dictionary sits under the key of the
    rule it holds. *)
Definition keyed (self : AlertManager.t) : Prop :=
  forall k a,
    AlertManager.active_alerts self !! k = Some a ->
    k = AlertManager.alert_key (rule a).

Lemma keyed_init rs : keyed (AlertManager.init rs).
Proof. intros k a H. simpl in H. by rewrite lookup_empty in H. Qed.

Lemma transition_keyed self r m self' :
  transition self r m self' -> keyed self -> keyed self'.
Proof.
  intros [Hfree Hc | Htaken Hc] Hk k a; simpl.
  - rewrite lookup_insert. case_decide as Hd; [| apply Hk].
    intros [= <-]. by subst.
  - rewrite lookup_delete. case_decide; [done | apply Hk].
Qed.

Lemma check_alerts_keyed ms self logger :
  keyed self -> keyed (AlertManager.check_alerts ms self logger).1.
Proof.
  intros Hk.
  destruct (check_alerts_cases ms self logger)
    as [-> | (r & m & self' & _ & _ & _ & _ & Ht & ->)]; [done |].
  by eapply transition_keyed.
Qed.

Lemma check_alerts_rules ms self logger :
  AlertManager.rules (AlertManager.check_alerts ms self logger).1
  = AlertManager.rules self.
Proof.
  destruct (check_alerts_cases ms self logger)
    as [-> | (r & m & self' & _ & _ & _ & _ & Ht & ->)]; [done |].
  by eapply transition_rules.
Qed.

Lemma reachable_keyed rs self :
  AlertManager.reachable rs self -> keyed self /\ AlertManager.rules self = rs.
Proof.
  induction 1 as [| self ms logger Hr [Hk Hrules]].
  - split; [apply keyed_init | done].
  - split; [by apply check_alerts_keyed | by rewrite check_alerts_rules].
Qed.

(** What one call of [check_alerts] may do to the entry under a key [k]:
    create it by the trigger of a rule with this key while the key is
    free, remove it by the resolve of a rule with this key, or leave it
    as it is. *)
Definition call_discipline (self : AlertManager.t) : Prop :=
  forall metrics logger k,
    let self' := (AlertManager.check_alerts metrics self logger).1 in
    (AlertManager.active_alerts self !! k = None ->
     is_Some (AlertManager.active_alerts self' !! k) ->
     exists r m,
       In r (AlertManager.rules self) /\ In m metrics /\
       enabled r = true /\ metric r = metric_name m /\
       check r (metric_value m) = true /\ k = AlertManager.alert_key r /\
       AlertManager.active_alerts self' !! k
       = Some (mk_alert r (timestamp m) (metric_value m))) /\
    (is_Some (AlertManager.active_alerts self !! k) ->
     AlertManager.active_alerts self' !! k = None ->
     exists r m,
       In r (AlertManager.rules self) /\ In m metrics /\
       enabled r = true /\ metric r = metric_name m /\
       check r (metric_value m) = false /\ k = AlertManager.alert_key r) /\
    (forall a a',
       AlertManager.active_alerts self !! k = Some a ->
       AlertManager.active_alerts self' !! k = Some a' -> a = a').

Lemma call_discipline_holds self : call_discipline self.
Proof.
  intros metrics logger k.
  destruct (check_alerts_cases metrics self logger)
    as [-> | (r & m & self' & Hin & Hm & En & Em & Ht & ->)]; simpl.
  - repeat split.
    + intros -> [? ?]. done.
    + intros [? ->]. done.
    + congruence.
  - destruct Ht as [Hfree Hc | Htaken Hc]; simpl.
    + destruct (decide (AlertManager.alert_key r = k)) as [<- | Hne].
      * rewrite lookup_insert_eq. repeat split.
        -- intros _ _. exists r, m. by repeat split.
        -- done.
        -- congruence.
      * rewrite lookup_insert_ne by done. repeat split.
        -- intros -> [? ?]. done.
        -- intros [? ->]. done.
        -- congruence.
    + destruct (decide (AlertManager.alert_key r = k)) as [<- | Hne].
      * rewrite lookup_delete_eq. repeat split.
        -- intros _ [? ?]. done.
        -- intros _ _. exists r, m. by repeat split.
        -- done.
      * rewrite lookup_delete_ne by done. repeat split.
        -- intros -> [? ?]. done.
        -- intros [? ->]. done.
        -- congruence.
Qed.

(** C1, on the code: with the single rule "High Memory"
    (system.memory_usage > 80.0, warning) the sample 70 changes nothing.
    The sample 85 stores the alert, and the call of [log_with_details]
    for the trigger event raises [TypeError]: [check_alerts] is left
    with the alert stored and no event in the queue. After that the
    sample 90 changes nothing, and the sample 60 deletes the alert and
    raises in the same way. The four samples in one call stop at 85: the
    samples 90 and 60 are never evaluated and the alert is still active
    at the end. *)
Theorem c1_high_memory_sequence (t1 t2 t3 t4 : datetime)
    (logger : SystemLogger.t) :
  let s0 := AlertManager.init [high_memory] in
  let active :=
    AlertManager.mk [high_memory]
      {[ "High Memory_system.memory_usage" := mk_alert high_memory t2 85 ]} in
  let raised : SystemLogger.t * outcome Datatypes.unit :=
    (SystemLogger.get_logger "alerts" logger,
     Raise unexpected_pathname) in
  AlertManager.check_alerts [memory_sample t1 70] s0 logger
  = (s0, (logger, Ok tt)) /\
  AlertManager.check_alerts [memory_sample t2 85] s0 logger
  = (active, raised) /\
  AlertManager.check_alerts [memory_sample t3 90] active logger
  = (active, (logger, Ok tt)) /\
  AlertManager.check_alerts [memory_sample t4 60] active logger
  = (s0, raised) /\
  AlertManager.check_alerts
    [memory_sample t1 70; memory_sample t2 85; memory_sample t3 90;
     memory_sample t4 60] s0 logger
  = (active, raised) /\
  SystemLogger.log_queue raised.1 = SystemLogger.log_queue logger.
Proof. repeat split; reflexivity. Qed.

(** C7, as the code has it: in every state the manager is left in by
    [check_alerts] calls, returning or raising, each entry sits under
    the key string of its rule, so there is at most one entry for a rule
    name and metric name; a call creates an entry under a key only by
    the trigger of a rule with this key string, on a sample of its
    metric that satisfies it, while the key is free; it removes an entry
    only by the resolve of a rule with this key string, on a sample of
    its metric that does not satisfy it; and it never replaces one. *)
Theorem c7_one_alert_per_key (rs : list AlertRule) (self : AlertManager.t) :
  AlertManager.reachable rs self ->
  (forall k1 k2 a1 a2,
     AlertManager.active_alerts self !! k1 = Some a1 ->
     AlertManager.active_alerts self !! k2 = Some a2 ->
     name (rule a1) = name (rule a2) ->
     metric (rule a1) = metric (rule a2) ->
     k1 = k2 /\ a1 = a2) /\
  keyed self /\
  AlertManager.rules self = rs /\
  call_discipline self.
Proof.
  intros Hr. destruct (reachable_keyed rs self Hr) as [Hk Hrules].
  split; [| split; [exact Hk | split; [exact Hrules |
                                        apply call_discipline_holds]]].
  intros k1 k2 a1 a2 H1 H2 Hn Hm.
  assert (k1 = k2) as ->.
  { rewrite (Hk _ _ H1), (Hk _ _ H2).
    unfold AlertManager.alert_key. by rewrite Hn, Hm. }
  split; [done | congruence].
Qed.

Lemma c7_one_alert_per_key_witness :
  let self :=
    (AlertManager.check_alerts
       [memory_sample (mk_datetime 2024 1 1 0 0 0 0) 85]
       (AlertManager.init [high_memory]) SystemLogger.init).1 in
  AlertManager.reachable [high_memory] self /\
  AlertManager.active_alerts self !! "High Memory_system.memory_usage"
  = Some (mk_alert high_memory (mk_datetime 2024 1 1 0 0 0 0) 85) /\
  keyed self.
Proof.
  assert (AlertManager.reachable [high_memory]
            (AlertManager.check_alerts
               [memory_sample (mk_datetime 2024 1 1 0 0 0 0) 85]
               (AlertManager.init [high_memory]) SystemLogger.init).1) as Hr
    by (apply AlertManager.reach_check, AlertManager.reach_init).
  split; [exact Hr |]. split; [reflexivity |].
  exact (proj1 (proj2 (c7_one_alert_per_key _ _ Hr))).
Defined.

(** Two rules of different names on different metrics whose key strings
    are the same. *)
Definition disk_io_wait : AlertRule :=
  mk_rule "Disk_io" "wait" ">" 1 "warning" true.
Definition disk_io_wait' : AlertRule :=
  mk_rule "Disk" "io_wait" ">" 1 "warning" true.

Definition shared_key_rules : list AlertRule := [disk_io_wait; disk_io_wait'].

(** C7, as the claim states it, fails: the two rules differ in name and
    in metric, and both have the key "Disk_io_wait". A sample of "wait"
    triggers the first rule and its alert is stored; a sample of
    "io_wait" that does not satisfy the second rule then removes this
    alert, in a call in which the first rule is not evaluated at all:
    the entry of one (rule name, metric name) pair is removed by the
    resolve transition of another. *)
Lemma c7_shared_key_removal :
  let wait := mk_metric (mk_datetime 2024 1 1 0 0 0 0) "wait" 5 "s" None in
  let io_wait :=
    mk_metric (mk_datetime 2024 1 1 0 1 0 0) "io_wait" 0 "s" None in
  let s1 := (AlertManager.check_alerts [wait]
               (AlertManager.init shared_key_rules) SystemLogger.init).1 in
  let s2 := (AlertManager.check_alerts [io_wait] s1 SystemLogger.init).1 in
  (name disk_io_wait <> name disk_io_wait' /\
   metric disk_io_wait <> metric disk_io_wait') /\
  AlertManager.reachable shared_key_rules s1 /\
  AlertManager.active_alerts s1 !! "Disk_io_wait"
  = Some (mk_alert disk_io_wait (timestamp wait) 5) /\
  AlertManager.check_rule disk_io_wait io_wait s1 SystemLogger.init
  = (s1, (SystemLogger.init, Ok tt)) /\
  AlertManager.check_rule disk_io_wait' io_wait s1 SystemLogger.init
  = (s2, (SystemLogger.get_logger "alerts" SystemLogger.init,
          Raise unexpected_pathname)) /\
  AlertManager.active_alerts s2 !! "Disk_io_wait" = None.
Proof.
  cbv zeta. split; [split; discriminate |].
  split; [apply AlertManager.reach_check, AlertManager.reach_init |].
  repeat split; reflexivity.
Qed.

Definition info_rule : AlertRule :=
  mk_rule "Queue depth" "logging.total_size_mb" ">" 1 "info" true.

(** C10, on the code: a trigger transition hands [log_with_details] the
    level "WARNING" exactly when the severity of the rule is "warning"
    and "CRITICAL" for every other severity, "info" included; but the
    call raises [TypeError] once the alert is stored, so no event is
    logged at any level: the queue of the logger is as it was. *)
Theorem c10_trigger_level (r : AlertRule) (m : SystemMetric)
    (self : AlertManager.t) (logger : SystemLogger.t) :
  AlertManager.active_alerts self !! AlertManager.alert_key r = None ->
  let after := AlertManager._trigger_alert r m self logger in
  (level (AlertManager.trigger_event r m) = "WARNING" <->
   severity r = "warning") /\
  (severity r <> "warning" ->
   level (AlertManager.trigger_event r m) = "CRITICAL") /\
  (severity r = "info" ->
   level (AlertManager.trigger_event r m) = "CRITICAL") /\
  after.2
  = SystemLogger.log_with_details (AlertManager.trigger_event r m) logger /\
  after.2.2
  = Raise unexpected_pathname /\
  SystemLogger.log_queue after.2.1 = SystemLogger.log_queue logger /\
  AlertManager.active_alerts after.1 !! AlertManager.alert_key r
  = Some (mk_alert r (timestamp m) (metric_value m)).
Proof.
  intros Hfree. cbv zeta. unfold AlertManager._trigger_alert.
  rewrite Hfree. cbn [fst snd]. rewrite log_trigger. cbn [fst snd].
  simpl AlertManager.active_alerts. rewrite lookup_insert_eq.
  unfold AlertManager.trigger_event, AlertManager.trigger_level.
  cbn [level].
  destruct (String.eqb_spec (severity r) "warning") as [-> | Hne].
  - repeat split; congruence.
  - repeat split; congruence.
Qed.

Lemma c10_trigger_level_witness :
  let m := mk_metric (mk_datetime 2024 1 1 0 0 0 0) "logging.total_size_mb"
             2 "MB" None in
  level (AlertManager.trigger_event info_rule m) = "CRITICAL" /\
  (AlertManager._trigger_alert info_rule m (AlertManager.init [info_rule])
     SystemLogger.init).2.2
  = Raise unexpected_pathname.
Proof.
  cbv zeta.
  pose proof (c10_trigger_level info_rule
                (mk_metric (mk_datetime 2024 1 1 0 0 0 0)
                   "logging.total_size_mb" 2 "MB" None)
                (AlertManager.init [info_rule]) SystemLogger.init eq_refl)
    as (_ & _ & Hinfo & _ & Hraise & _).
  split; [exact (Hinfo eq_refl) | exact Hraise].
Defined.


(** ** More on the alert manager *)

(** [started_at] and [failed_at] stamp the samples of the examples. *)
Definition started_at : datetime := mk_datetime 2024 1 1 10 0 0 0.
Definition failed_at : datetime := mk_datetime 2024 1 1 10 5 0 250000.

Definition load_sample (ts : datetime) (v : float) : SystemMetric :=
  mk_metric ts "system.load_avg" v "count" None.

(** X3: samples that no enabled rule watches change nothing: the call
    returns, no call of the logger is made, and an alert that is active
    for a rule which is disabled stays active whatever values arrive. *)
Theorem check_alerts_unwatched (ms : list SystemMetric)
    (self : AlertManager.t) (logger : SystemLogger.t) :
  (forall r m,
     In r (AlertManager.rules self) -> In m ms ->
     enabled r = false \/ metric r <> metric_name m) ->
  AlertManager.check_alerts ms self logger = (self, (logger, Ok tt)).
Proof.
  intros H.
  destruct (check_alerts_cases ms self logger)
    as [-> | (r & m & self' & Hin & Hm & En & Em & _)]; [done |].
  destruct (H r m Hin Hm); congruence.
Qed.

Definition disabled_memory : AlertRule :=
  mk_rule "High Memory" "system.memory_usage" ">" 80 "warning" false.

Lemma check_alerts_unwatched_witness :
  let stuck := AlertManager.mk [disabled_memory]
                 {[ "High Memory_system.memory_usage"
                    := mk_alert disabled_memory started_at 95 ]} in
  AlertManager.check_alerts [memory_sample failed_at 10] stuck
    SystemLogger.init
  = (stuck, (SystemLogger.init, Ok tt)).
Proof.
  apply check_alerts_unwatched.
  intros r m [<- | []] _. by left.
Defined.

Lemma operators_unknown op :
  ~ In op [">"; "<"; ">="; "<="; "=="] -> operators op = None.
Proof.
  intros H. unfold operators.
  repeat match goal with
         | |- context [String.eqb op ?s] =>
             destruct (String.eqb_spec op s) as [-> | ?];
             [exfalso; apply H; simpl; tauto |]
         end.
  reflexivity.
Qed.

(** X4: a rule whose operator is none of [>], [<], [>=], [<=], [==] never
    holds: evaluating it adds no alert, and the only call of the logger
    it can make is the one for a resolve. *)
Theorem unknown_operator_never_triggers (r : AlertRule) (m : SystemMetric)
    (self : AlertManager.t) (logger : SystemLogger.t) :
  ~ In (operator r) [">"; "<"; ">="; "<="; "=="] ->
  (forall value, check r value = false) /\
  (forall k a,
     AlertManager.active_alerts
       (AlertManager.check_rule r m self logger).1 !! k = Some a ->
     AlertManager.active_alerts self !! k = Some a) /\
  (AlertManager.check_rule r m self logger = (self, (logger, Ok tt)) \/
   (AlertManager.check_rule r m self logger).2
   = SystemLogger.log_with_details (AlertManager.resolve_event r m) logger).
Proof.
  intros Hop. pose proof (operators_unknown _ Hop) as Hnone.
  assert (forall value, check r value = false) as Hcheck
    by (intros value; unfold check; by rewrite Hnone).
  split; [exact Hcheck |].
  unfold AlertManager.check_rule. rewrite Hcheck.
  destruct (negb (enabled r)); [by split; [| left] |].
  destruct (String.eqb (metric r) (metric_name m));
    [| by split; [| left]].
  unfold AlertManager._resolve_alert.
  destruct (AlertManager.active_alerts self !! AlertManager.alert_key r)
    eqn:E; simpl.
  - split.
    + intros k b. rewrite lookup_delete. by case_decide.
    + by right.
  - by split; [| left].
Qed.

Definition odd_rule : AlertRule :=
  mk_rule "Load" "system.load_avg" "=>" 2 "warning" true.

Lemma unknown_operator_never_triggers_witness :
  check odd_rule 100 = false.
Proof.
  refine (proj1 (unknown_operator_never_triggers odd_rule
                   (load_sample started_at 100)
                   (AlertManager.init [odd_rule]) SystemLogger.init _)
            100%float).
  simpl. intros [H | [H | [H | [H | [H | []]]]]]; discriminate H.
Defined.

Lemma nan_comparisons x :
  PrimFloat.ltb x nan = false /\ PrimFloat.ltb nan x = false /\
  PrimFloat.leb x nan = false /\ PrimFloat.leb nan x = false /\
  PrimFloat.eqb nan x = false.
Proof.
  rewrite !FloatAxioms.ltb_spec, !FloatAxioms.leb_spec, FloatAxioms.eqb_spec.
  change (Prim2SF nan) with S754_nan.
  unfold SFltb, SFleb, SFeqb, SFcompare.
  by destruct (Prim2SF x) as [| | | [] ? ?].
Qed.

(** X5: a sample whose value is NaN satisfies no rule, whatever the
    operator and the threshold: an enabled rule on its metric takes the
    resolve branch. *)
Theorem nan_sample_resolves (r : AlertRule) (m : SystemMetric)
    (self : AlertManager.t) (logger : SystemLogger.t) :
  check r nan = false /\
  (metric_value m = nan -> enabled r = true -> metric r = metric_name m ->
   AlertManager.check_rule r m self logger
   = AlertManager._resolve_alert r m self logger).
Proof.
  assert (check r nan = false) as Hnan.
  { unfold check, operators.
    destruct (nan_comparisons (threshold r)) as (? & ? & ? & ? & ?).
    repeat match goal with
           | |- context [String.eqb ?a ?b] => destruct (String.eqb a b)
           end; done. }
  split; [exact Hnan |].
  intros Hv He Hm. unfold AlertManager.check_rule.
  rewrite He, Hv, Hnan. simpl. by rewrite Hm, String.eqb_refl.
Qed.

Lemma nan_sample_resolves_witness :
  (AlertManager.check_rule high_memory (memory_sample failed_at nan)
     (AlertManager.mk [high_memory]
        {[ "High Memory_system.memory_usage"
           := mk_alert high_memory started_at 95 ]})
     SystemLogger.init).1
  = AlertManager.init [high_memory].
Proof.
  rewrite (proj2 (nan_sample_resolves high_memory
                    (memory_sample failed_at nan)
                    (AlertManager.mk [high_memory]
                       {[ "High Memory_system.memory_usage"
                          := mk_alert high_memory started_at 95 ]})
                    SystemLogger.init)
             eq_refl eq_refl eq_refl).
  reflexivity.
Defined.

(** The alert entries agree with the sample [m]: for each enabled rule
    on the metric of [m], the entry under its key is there exactly when
    the rule holds on [m]. *)
Definition settled (m : SystemMetric) (self : AlertManager.t) : Prop :=
  forall r,
    In r (AlertManager.rules self) -> enabled r = true ->
    metric r = metric_name m ->
    if check r (metric_value m)
    then is_Some (AlertManager.active_alerts self !! AlertManager.alert_key r)
    else AlertManager.active_alerts self !! AlertManager.alert_key r = None.

Lemma transition_unsettled self r m self' :
  transition self r m self' ->
  ~ (if check r (metric_value m)
     then is_Some (AlertManager.active_alerts self
                   !! AlertManager.alert_key r)
     else AlertManager.active_alerts self !! AlertManager.alert_key r = None).
Proof.
  intros [Hfree Hc | [a Htaken] Hc]; rewrite Hc.
  - rewrite Hfree. by intros [? ?].
  - by rewrite Htaken.
Qed.

Lemma check_rule_unchanged r m self logger :
  AlertManager.check_rule r m self logger = unchanged self logger ->
  enabled r = true -> metric r = metric_name m ->
  if check r (metric_value m)
  then is_Some (AlertManager.active_alerts self !! AlertManager.alert_key r)
  else AlertManager.active_alerts self !! AlertManager.alert_key r = None.
Proof.
  intros E En Em.
  unfold AlertManager.check_rule, AlertManager._trigger_alert,
    AlertManager._resolve_alert in E.
  rewrite En, Em, String.eqb_refl in E. simpl in E.
  destruct (check r (metric_value m));
    destruct (AlertManager.active_alerts self !! AlertManager.alert_key r)
      eqn:Ek; try done.
  rewrite log_trigger in E. discriminate E.
Qed.

Lemma check_rules_unchanged rs m self logger :
  AlertManager.check_rules rs m self logger = unchanged self logger ->
  forall r,
    In r rs -> enabled r = true -> metric r = metric_name m ->
    if check r (metric_value m)
    then is_Some (AlertManager.active_alerts self !! AlertManager.alert_key r)
    else AlertManager.active_alerts self !! AlertManager.alert_key r = None.
Proof.
  induction rs as [| r' rs IH]; [intros _ r [] |]. simpl.
  destruct (check_rule_cases r' m self logger)
    as [E1 | (_ & _ & self' & _ & E1)]; rewrite E1;
    [| discriminate].
  unfold unchanged at 1. cbn iota beta.
  intros E r [<- | Hin]; [by apply (check_rule_unchanged r' m self logger) |].
  by apply IH.
Qed.

Lemma check_alerts_unchanged ms self logger :
  AlertManager.check_alerts ms self logger = unchanged self logger ->
  forall m, In m ms -> settled m self.
Proof.
  induction ms as [| m' ms IH]; [intros _ m [] |]. simpl.
  destruct (check_rules_cases (AlertManager.rules self) m' self logger)
    as [E1 | (r & self' & _ & _ & _ & _ & E1)]; rewrite E1;
    [| discriminate].
  pose proof (check_rules_unchanged _ _ _ _ E1) as Hs.
  unfold unchanged at 1. cbn iota beta.
  intros E m [<- | Hin]; [exact Hs | by apply IH].
Qed.

(** X22: a call of [check_alerts] makes at most one transition. It
    returns exactly when none is due, that is when for every sample and
    every enabled rule on its metric the alert is there if and only if
    the rule holds, and then it changes nothing. Otherwise it stores or
    deletes one alert, for a rule of the manager and a sample of the
    batch, and raises the [TypeError] of [log_with_details]; no record is
    queued. *)
Theorem check_alerts_one_transition (ms : list SystemMetric)
    (self : AlertManager.t) (logger : SystemLogger.t) :
  let after := AlertManager.check_alerts ms self logger in
  (after.2.2 = Ok tt <-> forall m, In m ms -> settled m self) /\
  (after.2.2 = Ok tt -> after = (self, (logger, Ok tt))) /\
  (after.2.2 <> Ok tt ->
   exists r m,
     In r (AlertManager.rules self) /\ In m ms /\
     enabled r = true /\ metric r = metric_name m /\
     transition self r m after.1 /\
     after.2 = (SystemLogger.get_logger "alerts" logger,
                Raise unexpected_pathname)) /\
  SystemLogger.log_queue after.2.1 = SystemLogger.log_queue logger.
Proof.
  cbv zeta.
  destruct (check_alerts_cases ms self logger)
    as [E | (r & m & self' & Hin & Hm & En & Em & Ht & E)].
  - pose proof (check_alerts_unchanged _ _ _ E) as Hs.
    rewrite E. cbn [fst snd unchanged]. by repeat split.
  - rewrite E. cbn [fst snd aborted]. repeat split; try done.
    + intros Hs. exfalso.
      exact (transition_unsettled _ _ _ _ Ht (Hs m Hm r Hin En Em)).
    + intros _. exists r, m. by repeat split.
Qed.


(** ** The bounded log queue *)

Lemma emit_never_raises record q :
  exists q', LogQueueHandler.emit record q = Ok q'.
Proof.
  unfold LogQueueHandler.emit, Queue.put_nowait.
  destruct ((0 <? Queue.maxsize q) && (Queue.maxsize q <=? Queue.qsize q));
    eauto.
Qed.

Lemma emit_queue_maxsize record q :
  Queue.maxsize (LogQueueHandler.emit_queue record q) = Queue.maxsize q.
Proof.
  unfold LogQueueHandler.emit_queue, LogQueueHandler.emit, Queue.put_nowait.
  destruct ((0 <? Queue.maxsize q) && (Queue.maxsize q <=? Queue.qsize q));
    reflexivity.
Qed.

Lemma emit_queue_bounded record q :
  0 < Queue.maxsize q -> Queue.qsize q <= Queue.maxsize q ->
  Queue.qsize (LogQueueHandler.emit_queue record q) <= Queue.maxsize q.
Proof.
  intros Hpos Hle.
  unfold LogQueueHandler.emit_queue, LogQueueHandler.emit, Queue.put_nowait.
  destruct ((0 <? Queue.maxsize q) && (Queue.maxsize q <=? Queue.qsize q))
    eqn:E; [exact Hle |].
  apply andb_false_iff in E as [E | E]; [lia |].
  unfold Queue.qsize in *. simpl. rewrite length_app. simpl. lia.
Qed.

Lemma reachable_bounded C q :
  0 < C -> LogQueueHandler.reachable C q ->
  Queue.maxsize q = C /\ Queue.qsize q <= C.
Proof.
  intros Hpos. induction 1 as [| q record Hr [Hm Hb] | q q' record Hr [Hm Hb] Hg
                               | q q' Hr [Hm Hb] Ht].
  - split; [reflexivity | unfold Queue.qsize; simpl; lia].
  - rewrite emit_queue_maxsize. split; [exact Hm |].
    rewrite <- Hm. apply emit_queue_bounded; lia.
  - unfold Queue.get in Hg. destruct (Queue.items q) as [| x rest] eqn:Ei;
      [discriminate |].
    injection Hg as _ <-. split; [exact Hm |].
    unfold Queue.qsize in *. rewrite Ei in Hb. simpl in *. lia.
  - unfold Queue.task_done in Ht.
    destruct (Queue.unfinished_tasks q <=? 0); [discriminate |].
    injection Ht as <-. split; [exact Hm | exact Hb].
Qed.

(** C3: [emit] always returns normally. With capacity [C] (1000 for the
    system logger), a queue holding fewer than [C] records gets the new
    record at its tail, a queue holding [C] records is left exactly as it
    was, and no state reached by producers and the worker holds more than
    [C] records. *)
Theorem c3_emit_bounded (C : Z) (q : Queue.t) (record : LogRecord) :
  0 < C -> Queue.maxsize q = C ->
  (exists q', LogQueueHandler.emit record q = Ok q') /\
  (Queue.qsize q < C ->
   LogQueueHandler.emit record q
   = Ok (Queue.mk C (Queue.items q ++ [record])
           (Queue.unfinished_tasks q + 1))) /\
  (Queue.qsize q = C -> LogQueueHandler.emit record q = Ok q) /\
  (LogQueueHandler.reachable C q -> Queue.qsize q <= C) /\
  Queue.maxsize (SystemLogger.log_queue SystemLogger.init) = 1000.
Proof.
  intros Hpos Hm. split; [apply emit_never_raises |].
  unfold LogQueueHandler.emit, Queue.put_nowait. rewrite Hm.
  repeat split.
  - intros Hlt.
    replace ((0 <? C) && (C <=? Queue.qsize q)) with false; [reflexivity |].
    symmetry. apply andb_false_iff. right. lia.
  - intros Heq.
    replace ((0 <? C) && (C <=? Queue.qsize q)) with true; [reflexivity |].
    symmetry. apply andb_true_iff. split; lia.
  - intros Hr. by apply reachable_bounded in Hr as [_ ?].
Qed.

Definition sample_record (text : string) : LogRecord :=
  mk_record "system" "INFO" text None.

Lemma c3_emit_bounded_witness :
  LogQueueHandler.emit (sample_record "c")
    (Queue.mk 2 [sample_record "a"; sample_record "b"] 2)
  = Ok (Queue.mk 2 [sample_record "a"; sample_record "b"] 2).
Proof.
  exact (proj1 (proj2 (proj2
    (c3_emit_bounded 2 (Queue.mk 2 [sample_record "a"; sample_record "b"] 2)
       (sample_record "c") ltac:(lia) eq_refl))) eq_refl).
Defined.

(** C8, as the code has it: a record that meets a full queue is discarded
    and nothing else happens. [handle] returns normally, the logger is
    left exactly as it was, and the statistics it reports are the same as
    before; no count of dropped records is kept. *)
Theorem c8_drop_is_silent (self : SystemLogger.t) (record : LogRecord)
    (dir : list LogFile) :
  Queue.put_nowait record (SystemLogger.log_queue self) = Raise Full ->
  SystemLogger.handle record self = Ok self /\
  (forall self',
     SystemLogger.handle record self = Ok self' ->
     SystemLogger.get_log_stats dir self'
     = SystemLogger.get_log_stats dir self).
Proof.
  intros Hfull.
  assert (SystemLogger.handle record self = Ok self) as Hh.
  { unfold SystemLogger.handle, LogQueueHandler.emit. rewrite Hfull.
    simpl. by destruct self. }
  split; [exact Hh |]. intros self' H. congruence.
Qed.

Definition full_logger : SystemLogger.t :=
  SystemLogger.mk {["system"]} (Queue.mk 1 [sample_record "a"] 1).

Lemma c8_drop_is_silent_witness :
  SystemLogger.handle (sample_record "b") full_logger = Ok full_logger.
Proof.
  exact (proj1 (c8_drop_is_silent full_logger (sample_record "b") []
                  eq_refl)).
Defined.

(** C8, as the claim states it, fails: the record "b" is dropped by the
    full queue of [full_logger], and no count read from the state of the
    logger is one higher afterwards. *)
Lemma c8_no_drop_count :
  Queue.put_nowait (sample_record "b") (SystemLogger.log_queue full_logger)
  = Raise Full /\
  ~ (exists count : SystemLogger.t -> nat,
       forall self',
         SystemLogger.handle (sample_record "b") full_logger = Ok self' ->
         count self' = S (count full_logger)).
Proof.
  split; [reflexivity |].
  intros [count H]. specialize (H full_logger eq_refl). lia.
Qed.

(** ** The metrics collection thread *)

(** C9: [start_collection] on a running collector changes nothing and does
    nothing, so starting twice is the same as starting once;
    [stop_collection] clears the running flag, keeps the thread, and joins
    it with a timeout of 5 seconds when there is one. The call of
    [log_system_event] that follows the join raises like every call of
    [log_with_details]. *)
Theorem c9_start_stop (self : MetricsCollector.t) (interval : Z)
    (logger : SystemLogger.t) :
  (MetricsCollector.running self = true ->
   MetricsCollector.start_collection interval self logger
   = (self, [], (logger, Ok tt))) /\
  (forall again logger',
     MetricsCollector.start_collection again
       (MetricsCollector.start_collection interval self logger).1.1 logger'
     = ((MetricsCollector.start_collection interval self logger).1.1, [],
        (logger', Ok tt))) /\
  MetricsCollector.running
    (MetricsCollector.stop_collection self logger).1.1 = false /\
  MetricsCollector.thread (MetricsCollector.stop_collection self logger).1.1
  = MetricsCollector.thread self /\
  (forall i,
     MetricsCollector.thread self = Some i ->
     (MetricsCollector.stop_collection self logger).1.2
     = [ThreadJoin i 5]) /\
  (MetricsCollector.thread self = None ->
   (MetricsCollector.stop_collection self logger).1.2 = []) /\
  (MetricsCollector.stop_collection self logger).2
  = SystemLogger.log_system_event "monitoring" "Stopped metrics collection"
      None logger /\
  (MetricsCollector.stop_collection self logger).2.2
  = Raise unexpected_pathname.
Proof.
  unfold MetricsCollector.start_collection, MetricsCollector.stop_collection.
  repeat split; simpl.
  - by intros ->.
  - intros again logger'.
    by destruct (MetricsCollector.running self) eqn:E; simpl; rewrite ?E.
  - by intros i ->.
  - by intros ->.
Qed.

Lemma c9_start_stop_witness :
  let running_collector :=
    (MetricsCollector.start_collection 60 MetricsCollector.init
       SystemLogger.init).1.1 in
  MetricsCollector.running running_collector = true /\
  MetricsCollector.start_collection 30 running_collector SystemLogger.init
  = (running_collector, [], (SystemLogger.init, Ok tt)) /\
  (MetricsCollector.stop_collection running_collector SystemLogger.init).1.2
  = [ThreadJoin 60 5].
Proof.
  split; [reflexivity |]. split.
  - exact (proj1 (c9_start_stop
                    (MetricsCollector.start_collection 60
                       MetricsCollector.init SystemLogger.init).1.1 30
                    SystemLogger.init) eq_refl).
  - exact (proj1 (proj2 (proj2 (proj2 (proj2
             (c9_start_stop
                (MetricsCollector.start_collection 60
                   MetricsCollector.init SystemLogger.init).1.1 30
                SystemLogger.init))))) 60 eq_refl).
Defined.

(** ** The log worker *)

(** What the sinks [hs] write to standard error for a record when each
    of them is handed it. *)
Definition reports_of (hs : list AsyncLogWorker.Handler) (record : LogRecord)
  : list ErrorReport :=
  flat_map (fun h => (AsyncLogWorker.handler_emit h record).1) hs.

Lemma deliver_all hs record :
  Forall (fun h => (AsyncLogWorker.handler_emit h record).2 = None) hs ->
  AsyncLogWorker.deliver hs record
  = (map (fun h => (AsyncLogWorker.handler_name h, record)) hs,
     reports_of hs record, None).
Proof.
  induction 1 as [| h hs Hh Hb IH]; simpl; [done |].
  destruct (AsyncLogWorker.handler_emit h record) as [reports [e |]];
    [done |].
  by rewrite IH.
Qed.









(** * Further properties of the queue and the worker *)

(** Producers calling [emit] for the records [rs], one after the other. *)
Definition emit_all (rs : list LogRecord) (q : Queue.t) : Queue.t :=
  fold_left (fun q r => LogQueueHandler.emit_queue r q) rs q.

Lemma emit_all_spec rs q :
  0 < Queue.maxsize q -> Queue.qsize q <= Queue.maxsize q ->
  let room := (Z.to_nat (Queue.maxsize q) - length (Queue.items q))%nat in
  emit_all rs q
  = Queue.mk (Queue.maxsize q) (Queue.items q ++ take room rs)
      (Queue.unfinished_tasks q + Z.of_nat (length (take room rs))).
Proof.
  revert q. induction rs as [| r rs IH]; intros q Hpos Hle; simpl.
  - rewrite take_nil, app_nil_r, Z.add_0_r. by destruct q.
  - change (fold_left _ rs _) with (emit_all rs (LogQueueHandler.emit_queue r q)).
    assert (LogQueueHandler.emit_queue r q
            = if (0 <? Queue.maxsize q) && (Queue.maxsize q <=? Queue.qsize q)
              then q
              else Queue.mk (Queue.maxsize q) (Queue.items q ++ [r])
                     (Queue.unfinished_tasks q + 1)) as ->.
    { unfold LogQueueHandler.emit_queue, LogQueueHandler.emit,
        Queue.put_nowait.
      by destruct ((0 <? Queue.maxsize q)
                   && (Queue.maxsize q <=? Queue.qsize q)). }
    unfold Queue.qsize in *.
    destruct ((0 <? Queue.maxsize q)
              && (Queue.maxsize q <=? Z.of_nat (length (Queue.items q))))
      eqn:E.
    + apply andb_true_iff in E as [_ E%Z.leb_le].
      rewrite (IH q Hpos Hle).
      replace (Z.to_nat (Queue.maxsize q) - length (Queue.items q))%nat
        with 0%nat by lia.
      by rewrite !take_0.
    + apply andb_false_iff in E as [E%Z.ltb_ge | E%Z.leb_gt]; [lia |].
      rewrite IH; simpl; rewrite ?length_app; simpl; try lia.
      replace (Z.to_nat (Queue.maxsize q) - length (Queue.items q))%nat
        with (S (Z.to_nat (Queue.maxsize q)
                 - (length (Queue.items q) + 1)))%nat by lia.
      simpl. rewrite <- app_assoc. simpl. f_equal. lia.
Qed.

(** X7: producers that hand more records to an empty queue than it can
    hold lose only the overflow: the queue holds the first [C] records,
    in the order they were handed over, and every later one is dropped. *)
Theorem emit_all_keeps_first (C : Z) (rs : list LogRecord) :
  0 < C ->
  Queue.items (emit_all rs (Queue.new C)) = take (Z.to_nat C) rs /\
  Queue.unfinished_tasks (emit_all rs (Queue.new C))
  = Z.of_nat (length (take (Z.to_nat C) rs)).
Proof.
  intros Hpos.
  rewrite (emit_all_spec rs (Queue.new C)) by (unfold Queue.qsize; simpl; lia).
  simpl. rewrite Nat.sub_0_r. done.
Qed.

Lemma emit_all_keeps_first_witness :
  Queue.items (emit_all [sample_record "a"; sample_record "b";
                         sample_record "c"] (Queue.new 2))
  = [sample_record "a"; sample_record "b"].
Proof.
  exact (proj1 (emit_all_keeps_first 2
                  [sample_record "a"; sample_record "b"; sample_record "c"]
                  eq_refl)).
Defined.

(** What every sink has received once it was handed the records [rs] in
    this order, and what the sinks have written to standard error. *)
Definition deliveries (hs : list AsyncLogWorker.Handler)
    (rs : list LogRecord) : list (string * LogRecord) :=
  flat_map (fun r => map (fun h => (AsyncLogWorker.handler_name h, r)) hs) rs.

Definition reports (hs : list AsyncLogWorker.Handler)
    (rs : list LogRecord) : list ErrorReport :=
  flat_map (reports_of hs) rs.

Lemma iteration_accepted self record rest :
  Queue.items (AsyncLogWorker.log_queue self) = record :: rest ->
  Forall (fun h => (AsyncLogWorker.handler_emit h record).2 = None)
    (AsyncLogWorker.handlers self) ->
  0 < Queue.unfinished_tasks (AsyncLogWorker.log_queue self) ->
  AsyncLogWorker.iteration self
  = AsyncLogWorker.mk
      (Queue.mk (Queue.maxsize (AsyncLogWorker.log_queue self)) rest
         (Queue.unfinished_tasks (AsyncLogWorker.log_queue self) - 1))
      (AsyncLogWorker.handlers self) (AsyncLogWorker.running self)
      (AsyncLogWorker.delivered self
       ++ deliveries (AsyncLogWorker.handlers self) [record])
      (AsyncLogWorker.stdout self)
      (AsyncLogWorker.stderr self
       ++ reports (AsyncLogWorker.handlers self) [record]).
Proof.
  intros Hq Hh Hu. unfold AsyncLogWorker.iteration, Queue.get.
  rewrite Hq, (deliver_all _ _ Hh). unfold Queue.task_done. simpl.
  replace (Queue.unfinished_tasks (AsyncLogWorker.log_queue self) <=? 0)
    with false by (symmetry; apply Z.leb_gt; lia).
  unfold deliveries, reports. simpl. by rewrite !app_nil_r.
Qed.

Lemma run_accepted rs self :
  AsyncLogWorker.running self = true ->
  Queue.items (AsyncLogWorker.log_queue self) = rs ->
  (forall h r, In h (AsyncLogWorker.handlers self) -> In r rs ->
               (AsyncLogWorker.handler_emit h r).2 = None) ->
  Z.of_nat (length rs)
  <= Queue.unfinished_tasks (AsyncLogWorker.log_queue self) ->
  AsyncLogWorker.run (length rs) self
  = AsyncLogWorker.mk
      (Queue.mk (Queue.maxsize (AsyncLogWorker.log_queue self)) []
         (Queue.unfinished_tasks (AsyncLogWorker.log_queue self)
          - Z.of_nat (length rs)))
      (AsyncLogWorker.handlers self) true
      (AsyncLogWorker.delivered self
       ++ deliveries (AsyncLogWorker.handlers self) rs)
      (AsyncLogWorker.stdout self)
      (AsyncLogWorker.stderr self
       ++ reports (AsyncLogWorker.handlers self) rs).
Proof.
  revert self. induction rs as [| r rs IH]; intros self Hrun Hq Hacc Hu.
  - simpl. unfold deliveries, reports. simpl. rewrite !app_nil_r, Z.sub_0_r.
    destruct self as [[? ? ?] ? ? ? ? ?]. simpl in *. by subst.
  - change (AsyncLogWorker.run (length (r :: rs)) self)
      with (if AsyncLogWorker.running self
            then AsyncLogWorker.run (length rs) (AsyncLogWorker.iteration self)
            else self).
    rewrite Hrun.
    rewrite (iteration_accepted self r rs Hq) by
      (try (apply Forall_forall; intros h Hh; apply Hacc;
            [by apply list_elem_of_In | by left]);
       simpl length in Hu; lia).
    rewrite IH; simpl; try done.
    + f_equal; [f_equal; simpl length; lia | |].
      * rewrite <- app_assoc. f_equal. unfold deliveries. simpl.
        by rewrite app_nil_r.
      * rewrite <- app_assoc. f_equal. unfold reports. simpl.
        by rewrite app_nil_r.
    + intros h r' Hh Hr'. apply Hacc; [done | by right].
    + simpl length in Hu. lia.
Qed.

(** X8: records handed to an empty queue of capacity [C], at most [C] of
    them, reach every sink exactly once and in the order they were
    logged, when no sink raises: after as many passes of the worker loop
    as there are records the queue is empty, every task is marked done,
    nothing was printed, and standard error holds what the sinks
    themselves reported. *)
Theorem pipeline_fifo (C : Z) (rs : list LogRecord)
    (hs : list AsyncLogWorker.Handler) :
  0 < C -> Z.of_nat (length rs) <= C ->
  (forall h r, In h hs -> In r rs ->
               (AsyncLogWorker.handler_emit h r).2 = None) ->
  AsyncLogWorker.run (length rs)
    (AsyncLogWorker.mk (emit_all rs (Queue.new C)) hs true [] [] [])
  = AsyncLogWorker.mk (Queue.mk C [] 0) hs true (deliveries hs rs) []
      (reports hs rs).
Proof.
  intros Hpos Hlen Hacc.
  rewrite (emit_all_spec rs (Queue.new C)) by (unfold Queue.qsize; simpl; lia).
  simpl. rewrite Nat.sub_0_r, take_ge by lia.
  rewrite (run_accepted rs); simpl; try done.
  f_equal. f_equal. lia.
Qed.

Definition console_sink : AsyncLogWorker.Handler :=
  AsyncLogWorker.mk_handler "console" (fun _ => ([], None)).

Lemma pipeline_fifo_witness :
  AsyncLogWorker.delivered
    (AsyncLogWorker.run 2
       (AsyncLogWorker.mk
          (emit_all [sample_record "a"; sample_record "b"] (Queue.new 1000))
          [console_sink; console_sink] true [] [] []))
  = [("console", sample_record "a"); ("console", sample_record "a");
     ("console", sample_record "b"); ("console", sample_record "b")].
Proof.
  assert (forall h r,
            In h [console_sink; console_sink] ->
            In r [sample_record "a"; sample_record "b"] ->
            (AsyncLogWorker.handler_emit h r).2 = None) as Hacc
    by (intros h r [<- | [<- | []]] _; reflexivity).
  exact (f_equal AsyncLogWorker.delivered
           (pipeline_fifo 1000 [sample_record "a"; sample_record "b"]
              [console_sink; console_sink] eq_refl ltac:(simpl; lia) Hacc)).
Defined.

Lemma iteration_idle self :
  Queue.items (AsyncLogWorker.log_queue self) = [] ->
  AsyncLogWorker.iteration self = self.
Proof.
  intros Hq. unfold AsyncLogWorker.iteration, Queue.get. rewrite Hq.
  by destruct self.
Qed.

(** X9: once [stop] has cleared the flag the loop makes no further pass,
    so records still queued are never delivered; and a running worker
    whose queue is empty changes nothing, however long it waits. *)
Theorem worker_stopped_or_idle (self : AsyncLogWorker.t) :
  (forall fuel,
     AsyncLogWorker.run fuel (AsyncLogWorker.stop self)
     = AsyncLogWorker.stop self) /\
  AsyncLogWorker.delivered (AsyncLogWorker.stop self)
  = AsyncLogWorker.delivered self /\
  AsyncLogWorker.log_queue (AsyncLogWorker.stop self)
  = AsyncLogWorker.log_queue self /\
  (Queue.items (AsyncLogWorker.log_queue self) = [] ->
   forall fuel, AsyncLogWorker.run fuel self = self).
Proof.
  repeat split.
  - by intros [| fuel].
  - intros Hq fuel. induction fuel as [| fuel IH]; [done |].
    simpl. destruct (AsyncLogWorker.running self); [| done].
    by rewrite iteration_idle.
Qed.

Lemma worker_stopped_or_idle_witness :
  AsyncLogWorker.run 5 (AsyncLogWorker.mk (Queue.new 1000) [console_sink]
                          true [] [] [])
  = AsyncLogWorker.mk (Queue.new 1000) [console_sink] true [] [] [].
Proof.
  exact (proj2 (proj2 (proj2
           (worker_stopped_or_idle
              (AsyncLogWorker.mk (Queue.new 1000) [console_sink] true [] []
                 []))))
           eq_refl 5%nat).
Defined.


(** ** The retention sweep *)

(** Files the sweep passes over: the name does not match, or the file is
    not older than the cutoff. *)
Definition passed_over (cutoff : float) (dir : list LogFile) : Prop :=
  forall g,
    In g dir ->
    SystemLogger.glob_log (file_name g) = false
    \/ PrimFloat.ltb (st_mtime g) cutoff = false.

Lemma passed_over_not_old cutoff dir g :
  passed_over cutoff dir -> In g dir -> SystemLogger.is_old cutoff g = false.
Proof.
  intros H Hin. unfold SystemLogger.is_old.
  destruct (H g Hin) as [-> | ->]; [done | apply andb_false_r].
Qed.

Lemma sweep_passed_over cutoff dir acc :
  passed_over cutoff dir ->
  SystemLogger.sweep cutoff dir acc
  = (SystemLogger.mk_sweep (SystemLogger.remaining acc ++ dir)
       (SystemLogger.cleaned_count acc) (SystemLogger.logger acc), Ok tt).
Proof.
  revert acc. induction dir as [| g dir IH]; intros acc H.
  - simpl. rewrite app_nil_r. by destruct acc.
  - simpl. rewrite (passed_over_not_old cutoff (g :: dir) g H) by (by left).
    rewrite IH by (intros g' Hin; apply H; by right). simpl.
    by rewrite <- app_assoc.
Qed.

(** What is left of a file the sweep has tried to unlink. *)
Definition left_behind (f : LogFile) : list LogFile :=
  match unlink_error f with
  | Some _ => [f]
  | None => []
  end.

Lemma sweep_old cutoff f rest acc :
  SystemLogger.is_old cutoff f = true ->
  exists s,
    SystemLogger.sweep cutoff (f :: rest) acc
    = (s, Raise unexpected_pathname) /\
    SystemLogger.remaining s
    = SystemLogger.remaining acc ++ left_behind f ++ rest /\
    SystemLogger.log_queue (SystemLogger.logger s)
    = SystemLogger.log_queue (SystemLogger.logger acc).
Proof.
  intros Hold. simpl. rewrite Hold.
  unfold SystemLogger.unlink_and_log, SystemLogger.log_unlink_failure,
    SystemLogger.log_system_event, left_behind.
  destruct (unlink_error f) as [e |].
  - eexists. split; [reflexivity |]. simpl. by rewrite <- app_assoc.
  - eexists. split; [reflexivity |]. by simpl.
Qed.

(** C6, on the code: the cutoff is [now - days * 24 * 60 * 60]. As long
    as no file matches ["*.log*"] and is older than the cutoff, the
    directory is left as it is and 0 is returned. The first file [f] in
    directory order that matches and is older is unlinked, if that
    succeeds; then the call of [log_system_event] raises [TypeError], or
    [unlink] has raised, and either way the [except] clause calls
    [log_with_details], which raises [TypeError] out of
    [cleanup_old_logs]: no count is returned, nothing is queued, and the
    files after [f] stay as they are, however old. *)
Theorem c6_cleanup_old_logs (now : float) (days_to_keep : Z)
    (seconds : float) (before after : list LogFile) (f : LogFile)
    (self : SystemLogger.t) :
  SystemLogger.float_of_int (days_to_keep * 24 * 60 * 60) = Ok seconds ->
  let cutoff := PrimFloat.sub now seconds in
  passed_over cutoff before ->
  SystemLogger.glob_log (file_name f) = true ->
  PrimFloat.ltb (st_mtime f) cutoff = true ->
  let swept :=
    SystemLogger.cleanup_old_logs now days_to_keep (before ++ f :: after)
      self in
  SystemLogger.cleanup_old_logs now days_to_keep before self
  = (before, self, Ok 0) /\
  swept.2
  = Raise unexpected_pathname /\
  swept.1.1 = before ++ left_behind f ++ after /\
  (unlink_error f = None -> swept.1.1 = before ++ after) /\
  SystemLogger.log_queue swept.1.2 = SystemLogger.log_queue self.
Proof.
  intros Hs cutoff Hbefore Hglob Hmtime. cbv zeta.
  assert (SystemLogger.cutoff_time now days_to_keep = Ok cutoff) as Hc
    by (unfold SystemLogger.cutoff_time; by rewrite Hs).
  unfold SystemLogger.cleanup_old_logs. rewrite Hc.
  split.
  { by rewrite sweep_passed_over. }
  assert (SystemLogger.is_old cutoff f = true) as Hold
    by (unfold SystemLogger.is_old; by rewrite Hglob, Hmtime).
  assert (forall acc,
            exists s,
              SystemLogger.sweep cutoff (before ++ f :: after) acc
              = (s, Raise unexpected_pathname) /\
              SystemLogger.remaining s
              = SystemLogger.remaining acc ++ before ++ left_behind f
                ++ after /\
              SystemLogger.log_queue (SystemLogger.logger s)
              = SystemLogger.log_queue (SystemLogger.logger acc)) as Hsweep.
  { clear Hc. induction before as [| g before IH]; intros acc.
    - destruct (sweep_old cutoff f after acc Hold) as (s & E & Hr & Hq).
      by exists s.
    - simpl.
      rewrite (passed_over_not_old cutoff (g :: before) g Hbefore)
        by (by left).
      destruct (IH (fun g' Hin => Hbefore g' (or_intror Hin))
                  (SystemLogger.mk_sweep (SystemLogger.remaining acc ++ [g])
                     (SystemLogger.cleaned_count acc)
                     (SystemLogger.logger acc)))
        as (s & E & Hr & Hq).
      exists s. split; [exact E |]. split; [| exact Hq].
      rewrite Hr. simpl. by rewrite <- app_assoc. }
  destruct (Hsweep (SystemLogger.mk_sweep [] 0 self)) as (s & E & Hr & Hq).
  rewrite E. simpl in *. rewrite Hr.
  repeat split; try done.
  intros Hu. unfold left_behind. by rewrite Hu.
Qed.

(** A log directory: an old active file, a recent backup, an old backup
    that cannot be unlinked, and the metrics database. *)
Definition sample_dir : list LogFile :=
  [mk_file "system.log" 2048 1690000000 None;
   mk_file "system.log.1" 4096 1699999999 None;
   mk_file "system.log.2" 4096 1680000000
     (Some (Exception "PermissionError" "[Errno 13] Permission denied"));
   mk_file "metrics.db" 8192 1600000000 None].

Lemma c6_cleanup_old_logs_witness :
  let swept :=
    SystemLogger.cleanup_old_logs 1700000000 30 sample_dir
      SystemLogger.init in
  swept.2
  = Raise unexpected_pathname /\
  swept.1.1
  = [mk_file "system.log.1" 4096 1699999999 None;
     mk_file "system.log.2" 4096 1680000000
       (Some (Exception "PermissionError" "[Errno 13] Permission denied"));
     mk_file "metrics.db" 8192 1600000000 None] /\
  SystemLogger.is_old 1697408000
    (mk_file "system.log.2" 4096 1680000000
       (Some (Exception "PermissionError" "[Errno 13] Permission denied")))
  = true.
Proof.
  cbv zeta.
  pose proof (c6_cleanup_old_logs 1700000000 30 2592000 []
                [mk_file "system.log.1" 4096 1699999999 None;
                 mk_file "system.log.2" 4096 1680000000
                   (Some (Exception "PermissionError"
                            "[Errno 13] Permission denied"));
                 mk_file "metrics.db" 8192 1600000000 None]
                (mk_file "system.log" 2048 1690000000 None)
                SystemLogger.init eq_refl ltac:(intros g []) eq_refl eq_refl)
    as (_ & Hraise & _ & Hdir & _).
  split; [exact Hraise |]. split; [exact (Hdir eq_refl) | reflexivity].
Defined.


(** ** Log search *)

Section search_spec.

Variable strip : string -> string.
Variable json_loads : string -> outcome json.
Variable lower : string -> string.
Variable fromisoformat : string -> outcome tz_datetime.

(** The timestamp of an entry, when it is an ISO date-time string. *)
Definition timestamp_of (fields : list (string * json)) : option tz_datetime :=
  match assoc "timestamp" fields with
  | Some (JStr s) =>
      match fromisoformat s with
      | Ok t => Some t
      | Raise _ => None
      end
  | _ => None
  end.

(** A date-time that can be compared with a bound: both naive, or both
    aware. *)
Definition comparable (bound : option tz_datetime) (t : tz_datetime) : bool :=
  match bound with
  | Some b =>
      match utcoffset t, utcoffset b with
      | None, None | Some _, Some _ => true
      | _, _ => false
      end
  | None => true
  end.

(** A line parses as a record: it decodes to an object whose message, if
    any, is a string and, when a time bound is asked for, whose timestamp
    is an ISO date-time string of a date-time that can be compared with
    the bounds. *)
Definition is_record (start_time end_time : option tz_datetime)
    (entry : json) : bool :=
  match entry with
  | JDict fields =>
      match assoc "message" fields with
      | Some (JStr _) | None => true
      | Some _ => false
      end
      && match start_time, end_time with
         | None, None => true
         | _, _ =>
             match timestamp_of fields with
             | Some t => comparable start_time t && comparable end_time t
             | None => false
             end
         end
  | _ => false
  end.

(** [t] is at or after [bound], and at or before it. *)
Definition at_or_after (t bound : tz_datetime) : bool :=
  match tz_compare t bound with
  | Ok Lt | Raise _ => false
  | Ok _ => true
  end.

Definition at_or_before (t bound : tz_datetime) : bool :=
  match tz_compare t bound with
  | Ok Gt | Raise _ => false
  | Ok _ => true
  end.

(** The filters in the words of the specification: level equality, the
    inclusive lower bound, the upper bound, and the case-insensitive
    substring match on the message. *)
Definition passes_filters (query : string)
    (start_time end_time : option tz_datetime) (level : option string)
    (entry : json) : bool :=
  match entry with
  | JDict fields =>
      match SystemLogger.truthy level with
      | Some l =>
          match assoc "level" fields with
          | Some (JStr s) => String.eqb s l
          | _ => false
          end
      | None => true
      end
      && match start_time with
         | Some t0 =>
             match timestamp_of fields with
             | Some t => at_or_after t t0
             | None => false
             end
         | None => true
         end
      && match end_time with
         | Some t1 =>
             match timestamp_of fields with
             | Some t => at_or_before t t1
             | None => false
             end
         | None => true
         end
      && contains (lower query)
           (lower match assoc "message" fields with
                  | Some (JStr s) => s
                  | _ => ""
                  end)
  | _ => false
  end.

(** The entry a line contributes to the result, if any. *)
Definition matching (query : string)
    (start_time end_time : option tz_datetime) (level : option string)
    (line : string) : option json :=
  match json_loads (strip line) with
  | Ok entry =>
      if passes_filters query start_time end_time level entry
      then Some entry else None
  | Raise _ => None
  end.

Local Ltac open_keep :=
  unfold SystemLogger.keep, passes_filters, SystemLogger.message_lower,
    SystemLogger.entry_time, timestamp_of, getitem, dict_get,
    SystemLogger.differs, tz_lt, tz_gt, at_or_after, at_or_before;
  cbv [mret mbind outcome_ret outcome_bind].

(** When the filters return, they return what the specification says. *)
Lemma keep_returns query start_time end_time level entry b :
  SystemLogger.keep lower fromisoformat query start_time end_time level entry
  = Ok b ->
  b = passes_filters query start_time end_time level entry.
Proof.
  open_keep.
  destruct entry as [| | | | | | fields];
    destruct (SystemLogger.truthy level) as [l |];
    destruct start_time as [t0 |]; destruct end_time as [t1 |];
    simpl; try congruence.
  all: destruct (assoc "level" fields) as [[| | | | s | |] |]; simpl;
    try (destruct (String.eqb s l); simpl); try congruence.
  all: destruct (assoc "timestamp" fields) as [[| | | | ts | |] |]; simpl;
    try congruence;
    try (destruct (fromisoformat ts) as [t | e]; simpl; try congruence;
         try (destruct (tz_compare t t0) as [[| |] | e0]; simpl;
              try congruence);
         try (destruct (tz_compare t t1) as [[| |] | e1]; simpl;
              try congruence)).
  all: destruct (assoc "message" fields) as [[| | | | text | |] |]; simpl;
    congruence.
Qed.

Lemma comparable_compare bound t :
  comparable (Some bound) t = true -> exists c, tz_compare t bound = Ok c.
Proof.
  unfold comparable, tz_compare.
  destruct (utcoffset t) as [x |], (utcoffset bound) as [y |]; try done.
  - intros _. destruct (x =? y); eauto.
  - eauto.
Qed.

(** On a record the filters return. *)
Lemma keep_record query start_time end_time level entry :
  is_record start_time end_time entry = true ->
  SystemLogger.keep lower fromisoformat query start_time end_time level entry
  = Ok (passes_filters query start_time end_time level entry).
Proof.
  intros Hrec.
  assert (exists b,
            SystemLogger.keep lower fromisoformat query start_time end_time
              level entry = Ok b) as [b Hb].
  { destruct entry as [| | | | | | fields]; try done.
    unfold is_record in Hrec. apply andb_true_iff in Hrec as [Hmsg Hts].
    assert (exists text,
              SystemLogger.message_lower lower (JDict fields) = Ok text)
      as [text Hm].
    { unfold SystemLogger.message_lower. simpl.
      destruct (assoc "message" fields) as [[| | | | s | |] |]; try done;
        eauto. }
    assert (match start_time, end_time with
            | None, None => True
            | _, _ =>
                exists t,
                  SystemLogger.entry_time fromisoformat (JDict fields) = Ok t
                  /\ comparable start_time t = true
                  /\ comparable end_time t = true
            end) as Ht.
    { unfold timestamp_of, SystemLogger.entry_time in *. simpl.
      destruct start_time as [b0 |], end_time as [b1 |]; try done;
        destruct (assoc "timestamp" fields) as [[| | | | s | |] |];
        try done; simpl;
        destruct (fromisoformat s) as [ts |]; try done;
        apply andb_true_iff in Hts as [? ?]; eauto. }
    unfold SystemLogger.keep. cbv [mret mbind outcome_ret outcome_bind].
    assert (exists w, match SystemLogger.truthy level with
                      | Some l =>
                          match dict_get (JDict fields) "level" None with
                          | Ok v => Ok (SystemLogger.differs v l)
                          | Raise e => Raise e
                          end
                      | None => Ok false
                      end = Ok w) as [w ->]
      by (destruct (SystemLogger.truthy level); simpl; eauto).
    destruct w; [eauto |].
    destruct start_time as [t0 |], end_time as [t1 |].
    - destruct Ht as (t & -> & H0 & H1).
      destruct (comparable_compare _ _ H0) as [c0 E0].
      destruct (comparable_compare _ _ H1) as [c1 E1].
      unfold tz_lt, tz_gt. cbv [mret mbind outcome_ret outcome_bind].
      rewrite E0, E1, Hm. destruct c0, c1; eauto.
    - destruct Ht as (t & -> & H0 & _).
      destruct (comparable_compare _ _ H0) as [c0 E0].
      unfold tz_lt. cbv [mret mbind outcome_ret outcome_bind].
      rewrite E0, Hm. destruct c0; eauto.
    - destruct Ht as (t & -> & _ & H1).
      destruct (comparable_compare _ _ H1) as [c1 E1].
      unfold tz_gt. cbv [mret mbind outcome_ret outcome_bind].
      rewrite E1, Hm. destruct c1; eauto.
    - rewrite Hm. eauto. }
  by rewrite Hb, (keep_returns _ _ _ _ _ _ Hb).
Qed.


(** A line the scan gets past: [json.loads] decodes it and the filters
    return, or an exception is raised that is a [JSONDecodeError]. *)
Definition passable (query : string)
    (start_time end_time : option tz_datetime) (level : option string)
    (line : string) : bool :=
  match SystemLogger.examine strip json_loads lower fromisoformat query
          start_time end_time level line with
  | Ok _ => true
  | Raise e => SystemLogger.is_decode_error e
  end.

Lemma scan_passable query start_time end_time level lines results :
  Forall (fun line => passable query start_time end_time level line = true)
    lines ->
  SystemLogger.scan strip json_loads lower fromisoformat query start_time
    end_time level lines results
  = (results
     ++ omap (fun line =>
                match SystemLogger.examine strip json_loads lower
                        fromisoformat query start_time end_time level
                        line with
                | Ok found => found
                | Raise _ => None
                end) lines, None).
Proof.
  intros H. revert results.
  induction H as [| line lines Hl Hls IH]; intros results.
  - simpl. by rewrite app_nil_r.
  - simpl. unfold passable in Hl.
    destruct (SystemLogger.examine strip json_loads lower fromisoformat
                query start_time end_time level line) as [[entry |] | e].
    + rewrite IH. simpl. by rewrite <- app_assoc.
    + by rewrite IH.
    + rewrite Hl. by rewrite IH.
Qed.

(** A line of the kind the amended claim is about: [json.loads] raises
    nothing but [JSONDecodeError] on it, and what it decodes to is a
    record. *)
Definition well_formed (start_time end_time : option tz_datetime)
    (line : string) : bool :=
  match json_loads (strip line) with
  | Ok entry => is_record start_time end_time entry
  | Raise e => SystemLogger.is_decode_error e
  end.

Lemma well_formed_examine query start_time end_time level line :
  well_formed start_time end_time line = true ->
  passable query start_time end_time level line = true /\
  match SystemLogger.examine strip json_loads lower fromisoformat query
          start_time end_time level line with
  | Ok found => found
  | Raise _ => None
  end = matching query start_time end_time level line.
Proof.
  unfold well_formed, passable, SystemLogger.examine, matching.
  cbv [mret mbind outcome_ret outcome_bind].
  destruct (json_loads (strip line)) as [entry | e]; [| done].
  intros Hrec. by rewrite (keep_record query _ _ level _ Hrec).
Qed.

Lemma scan_records query start_time end_time level lines results :
  Forall (fun line => well_formed start_time end_time line = true) lines ->
  SystemLogger.scan strip json_loads lower fromisoformat query start_time
    end_time level lines results
  = (results ++ omap (matching query start_time end_time level) lines, None).
Proof.
  intros H. rewrite scan_passable.
  - f_equal. f_equal. induction H as [| line lines Hl Hls IH]; [done |].
    cbn [omap list_omap]. rewrite IH.
    by rewrite (proj2 (well_formed_examine query _ _ level _ Hl)).
  - eapply Forall_impl; [exact H |]. intros line Hl.
    exact (proj1 (well_formed_examine query _ _ level _ Hl)).
Qed.

End search_spec.


(** C5, as the code has it: when the active file is read to its end,
    [json.loads] raises nothing but [JSONDecodeError] on its lines, and
    every line that decodes is a record, [search_logs] returns, in file
    order, exactly the entries of the lines that decode and pass all the
    filters supplied; a line on which [json.loads] raises
    [JSONDecodeError] is skipped and the scan goes on to the end of the
    file. A missing file gives no result. *)
Theorem c5_search_logs (strip : string -> string)
    (json_loads : string -> outcome json) (lower : string -> string)
    (fromisoformat : string -> outcome tz_datetime) (lines : list string)
    (query : string) (start_time end_time : option tz_datetime)
    (level : option string) :
  (forall line,
     In line lines ->
     match json_loads (strip line) with
     | Ok entry => is_record fromisoformat start_time end_time entry = true
     | Raise e => SystemLogger.is_decode_error e = true
     end) ->
  SystemLogger.search_logs strip json_loads lower fromisoformat
    (Some (mk_reading lines None)) query start_time end_time level
  = (omap (matching strip json_loads lower fromisoformat query start_time
             end_time level) lines, None) /\
  SystemLogger.search_logs strip json_loads lower fromisoformat None
    query start_time end_time level = ([], None).
Proof.
  intros Hrec. split; [| reflexivity].
  unfold SystemLogger.search_logs. cbn [yielded failure].
  rewrite (scan_records strip json_loads lower fromisoformat query
             start_time end_time level lines []); [done |].
  apply Forall_forall. intros line Hin%list_elem_of_In.
  specialize (Hrec line Hin). unfold well_formed.
  by destruct (json_loads (strip line)).
Qed.

(** *** A log file to search *)

Definition newline : string := String (ascii_of_nat 10) "".
Definition quote : string := String (ascii_of_nat 34) "".
Definition quoted (s : string) : string := quote +:+ s +:+ quote.

Fixpoint lstrip (s : string) : string :=
  match s with
  | String c rest => if Ascii.is_space c then lstrip rest else s
  | EmptyString => EmptyString
  end.

(** [str.strip] on ASCII text. *)
Definition strip_ascii (s : string) : string :=
  String.rev (lstrip (String.rev (lstrip s))).

Definition lower_char (c : ascii) : ascii :=
  let n := nat_of_ascii c in
  if (Nat.leb 65 n && Nat.leb n 90)%bool then ascii_of_nat (n + 32) else c.

(** [str.lower] on ASCII text. *)
Fixpoint lower_ascii (s : string) : string :=
  match s with
  | String c rest => String (lower_char c) (lower_ascii rest)
  | EmptyString => EmptyString
  end.

(** The line [StructuredFormatter] writes for a record without details,
    and the value [json.loads] gives back for it. *)
Definition log_line (t : datetime) (lvl module text : string) : string :=
  "{" +:+ quoted "timestamp" +:+ ": " +:+ quoted (isoformat t) +:+ ", "
  +:+ quoted "level" +:+ ": " +:+ quoted lvl +:+ ", "
  +:+ quoted "module" +:+ ": " +:+ quoted module +:+ ", "
  +:+ quoted "message" +:+ ": " +:+ quoted text +:+ ", "
  +:+ quoted "details" +:+ ": null, "
  +:+ quoted "user_id" +:+ ": null, "
  +:+ quoted "session_id" +:+ ": null}".

Definition log_entry (t : datetime) (lvl module text : string) : json :=
  JDict [("timestamp", JStr (isoformat t)); ("level", JStr lvl);
         ("module", JStr module); ("message", JStr text);
         ("details", JNull); ("user_id", JNull); ("session_id", JNull)].

(** [json.loads] on the texts of this example: two records and the
    number 7; every other text used below is not JSON. *)
Definition example_loads (s : string) : outcome json :=
  match assoc s
          [(log_line started_at "INFO" "system" "Started metrics collection",
            log_entry started_at "INFO" "system" "Started metrics collection");
           (log_line failed_at "ERROR" "metrics"
              "Metric storage failed: disk I/O",
            log_entry failed_at "ERROR" "metrics"
              "Metric storage failed: disk I/O");
           ("7", JInt 7)] with
  | Some entry => Ok entry
  | None =>
      Raise (Exception "JSONDecodeError"
               "Unterminated string starting at: line 1 column 15 (char 14)")
  end.

(** [datetime.fromisoformat] on the two timestamps of this example, both
    without an offset. *)
Definition example_fromisoformat (s : string) : outcome tz_datetime :=
  match assoc s [(isoformat started_at, started_at);
                 (isoformat failed_at, failed_at)] with
  | Some d => Ok (naive d)
  | None =>
      Raise (Exception "ValueError"
               ("Invalid isoformat string: '" +:+ s +:+ "'"))
  end.

Definition sample_log : list string :=
  [log_line started_at "INFO" "system" "Started metrics collection"
   +:+ newline;
   "{" +:+ quoted "timestamp" +:+ ": " +:+ quote +:+ "2024-01-0" +:+ newline;
   log_line failed_at "ERROR" "metrics" "Metric storage failed: disk I/O"
   +:+ newline].

Lemma c5_search_logs_witness :
  SystemLogger.search_logs strip_ascii example_loads lower_ascii
    example_fromisoformat (Some (mk_reading sample_log None)) "DISK"
    (Some (naive started_at)) None (Some "ERROR")
  = ([log_entry failed_at "ERROR" "metrics" "Metric storage failed: disk I/O"],
     None).
Proof.
  refine (eq_trans (proj1 (c5_search_logs strip_ascii example_loads
                             lower_ascii example_fromisoformat sample_log
                             "DISK" (Some (naive started_at)) None
                             (Some "ERROR") _))
            _).
  - intros line [<- | [<- | [<- | []]]]; reflexivity.
  - reflexivity.
Defined.

(** The same file with a line that is valid JSON but no record put
    first. *)
Definition broken_log : list string :=
  ("7" +:+ newline) :: sample_log.

(** C5, as the claim states it, fails: the line "7" is not a record, yet
    it is not skipped; the search ends there and the two records after
    it, which pass the (empty) filters, are not returned. *)
Lemma c5_scan_aborted :
  omap (matching strip_ascii example_loads lower_ascii example_fromisoformat
          "" None None None) broken_log
  = [log_entry started_at "INFO" "system" "Started metrics collection";
     log_entry failed_at "ERROR" "metrics" "Metric storage failed: disk I/O"]
  /\
  SystemLogger.search_logs strip_ascii example_loads lower_ascii
    example_fromisoformat (Some (mk_reading broken_log None)) "" None None
    None
  = ([], Some (Exception "AttributeError"
                 "'int' object has no attribute 'get'")).
Proof. split; reflexivity. Qed.


(** * Further properties of the system logger *)

Section search_general.

Variable strip : string -> string.
Variable json_loads : string -> outcome json.
Variable lower : string -> string.
Variable fromisoformat : string -> outcome tz_datetime.




(** The body of [get_logs] of the dashboard: the last 50 entries of a
    search for the empty query. *)
Definition get_logs (log_file : option reading)
    (level : option string) : list json :=
  let logs := (SystemLogger.search_logs strip json_loads lower fromisoformat
                 log_file "" None None level).1 in
  drop (length logs - 50) logs.

Lemma scan_empty_level query start_time end_time lines results :
  SystemLogger.scan strip json_loads lower fromisoformat query start_time
    end_time (Some "") lines results
  = SystemLogger.scan strip json_loads lower fromisoformat query start_time
      end_time None lines results.
Proof.
  revert results. induction lines as [| line rest IH]; intros results;
    [done |].
  simpl.
  change (SystemLogger.examine strip json_loads lower fromisoformat query
            start_time end_time (Some "") line)
    with (SystemLogger.examine strip json_loads lower fromisoformat query
            start_time end_time None line).
  destruct (SystemLogger.examine strip json_loads lower fromisoformat query
              start_time end_time None line) as [[entry |] | e];
    [apply IH | apply IH |].
  destruct (SystemLogger.is_decode_error e); [apply IH | done].
Qed.

(** X11: the log endpoint of the dashboard returns the newest entries of
    the search, at most 50 and still in file order: all of them when
    there are no more than 50, otherwise the result without its oldest
    entries. An empty [level] parameter filters nothing, like a missing
    one. *)
Theorem get_logs_last_50 (log_file : option reading)
    (level : option string) :
  let logs := (SystemLogger.search_logs strip json_loads lower fromisoformat
                 log_file "" None None level).1 in
  length (get_logs log_file level) = Nat.min 50 (length logs) /\
  (exists older, logs = older ++ get_logs log_file level) /\
  ((length logs <= 50)%nat -> get_logs log_file level = logs) /\
  get_logs log_file (Some "") = get_logs log_file None.
Proof.
  cbv zeta. unfold get_logs.
  set (logs := (SystemLogger.search_logs strip json_loads lower fromisoformat
                  log_file "" None None level).1).
  repeat split.
  - rewrite length_drop. lia.
  - exists (take (length logs - 50) logs). by rewrite take_drop.
  - intros Hle. replace (length logs - 50)%nat with 0%nat by lia. done.
  - unfold SystemLogger.search_logs. destruct log_file as [f |]; [| done].
    by rewrite scan_empty_level.
Qed.

End search_general.

Lemma get_logs_last_50_witness :
  get_logs strip_ascii example_loads lower_ascii example_fromisoformat
    (Some (mk_reading sample_log None)) (Some "")
  = [log_entry started_at "INFO" "system" "Started metrics collection";
     log_entry failed_at "ERROR" "metrics" "Metric storage failed: disk I/O"].
Proof.
  rewrite (proj2 (proj2 (proj2
             (get_logs_last_50 strip_ascii example_loads lower_ascii
                example_fromisoformat (Some (mk_reading sample_log None))
                (Some ""))))).
  exact (proj1 (proj2 (proj2
           (get_logs_last_50 strip_ascii example_loads lower_ascii
              example_fromisoformat (Some (mk_reading sample_log None))
              None)))
           ltac:(vm_compute; lia)).
Defined.


(** ** The metric store query *)

Lemma lex_compare_antisym a b :
  lex_compare b a = CompOpp (lex_compare a b).
Proof.
  revert b. induction a as [| x a IH]; intros [| y b]; simpl; try done.
  rewrite (Z.compare_antisym x y).
  destruct (x ?= y); simpl; [apply IH | done | done].
Qed.

(** *** Fixed-width decimals compare as the numbers they print *)

Lemma digit_compare p q :
  0 <= p <= 9 -> 0 <= q <= 9 ->
  Ascii.compare (digit p) (digit q) = (p ?= q).
Proof.
  intros Hp Hq. unfold Ascii.compare, digit.
  rewrite !Z.mod_small by lia.
  rewrite !N_ascii_embedding by lia.
  rewrite Z2N.inj_compare by lia.
  apply Z.add_compare_mono_l.
Qed.

Lemma zpad_S w n :
  zpad (S w) n
  = String (digit (n / 10 ^ Z.of_nat w)) (zpad w (n mod 10 ^ Z.of_nat w)).
Proof. reflexivity. Qed.

Lemma compare_split (B qx rx qy ry : Z) (K : comparison) :
  0 <= rx < B -> 0 <= ry < B ->
  match qx ?= qy with
  | Eq => match rx ?= ry with Eq => K | c => c end
  | c => c
  end
  = match B * qx + rx ?= B * qy + ry with Eq => K | c => c end.
Proof.
  intros Hx Hy.
  destruct (Z.compare_spec qx qy) as [-> | Hlt | Hgt].
  - rewrite Z.add_compare_mono_l. reflexivity.
  - assert (B * qx + rx < B * qy + ry) as H by nia.
    apply Z.compare_lt_iff in H. by rewrite H.
  - assert (B * qy + ry < B * qx + rx) as H by nia.
    apply Z.compare_gt_iff in H. by rewrite H.
Qed.

Lemma app_cons c r s : String c r +:+ s = String c (r +:+ s).
Proof. reflexivity. Qed.

Lemma compare_cons a u b v :
  String.compare (String a u) (String b v)
  = match Ascii.compare a b with Eq => String.compare u v | c => c end.
Proof. reflexivity. Qed.

Lemma zpad_compare w x y s t :
  0 <= x < 10 ^ Z.of_nat w -> 0 <= y < 10 ^ Z.of_nat w ->
  String.compare (zpad w x +:+ s) (zpad w y +:+ t)
  = match x ?= y with Eq => String.compare s t | c => c end.
Proof.
  revert x y. induction w as [| w IH]; intros x y Hx Hy.
  - simpl in Hx, Hy. assert (x = 0) as -> by lia. assert (y = 0) as -> by lia.
    reflexivity.
  - rewrite Nat2Z.inj_succ, Z.pow_succ_r in Hx, Hy by lia.
    set (B := 10 ^ Z.of_nat w) in *.
    assert (0 < B) as HB by (apply Z.pow_pos_nonneg; lia).
    rewrite !zpad_S. fold B. rewrite !app_cons, compare_cons.
    pose proof (Z.div_mod x B ltac:(lia)) as Ex.
    pose proof (Z.div_mod y B ltac:(lia)) as Ey.
    pose proof (Z.mod_pos_bound x B HB) as Rx.
    pose proof (Z.mod_pos_bound y B HB) as Ry.
    assert (0 <= x / B <= 9) as Qx.
    { split; [apply Z.div_pos; lia |].
      assert (x / B < 10) by (apply Z.div_lt_upper_bound; lia). lia. }
    assert (0 <= y / B <= 9) as Qy.
    { split; [apply Z.div_pos; lia |].
      assert (y / B < 10) by (apply Z.div_lt_upper_bound; lia). lia. }
    rewrite digit_compare by done.
    rewrite (IH (x mod B) (y mod B)) by done.
    rewrite (compare_split B (x / B) (x mod B) (y / B) (y mod B)) by done.
    by rewrite <- Ex, <- Ey.
Qed.

Lemma zpad_compare_end w x y :
  0 <= x < 10 ^ Z.of_nat w -> 0 <= y < 10 ^ Z.of_nat w ->
  String.compare (zpad w x) (zpad w y) = (x ?= y).
Proof.
  intros Hx Hy.
  pose proof (zpad_compare w x y "" "" Hx Hy) as H.
  assert (forall s : string, s +:+ "" = s) as Hnil
    by (induction s as [| c s IHs];
        [reflexivity | by rewrite app_cons, IHs]).
  rewrite !Hnil in H. rewrite H. by destruct (x ?= y).
Qed.

Lemma compare_same_head c s t :
  String.compare (String c s) (String c t) = String.compare s t.
Proof.
  simpl. unfold Ascii.compare. by rewrite N.compare_refl.
Qed.

Lemma append_assoc (a b c : string) : (a +:+ b) +:+ c = a +:+ (b +:+ c).
Proof.
  induction a as [| x a IH]; [reflexivity |]. by rewrite !app_cons, IH.
Qed.

Lemma sep_app c s : String c "" +:+ s = String c s.
Proof. reflexivity. Qed.

Local Ltac split_compares :=
  repeat match goal with
         | |- context [(?x ?= ?y)%Z] => destruct (x ?= y)%Z; try reflexivity
         end.

(** *** Text order and time order *)

Definition date_fields (d : datetime) : list Z := [year d; month d; day d].

Lemma date_compare a b s t :
  0 <= year a <= 9999 -> 1 <= month a <= 12 -> 1 <= day a <= 31 ->
  0 <= year b <= 9999 -> 1 <= month b <= 12 -> 1 <= day b <= 31 ->
  String.compare (date_text a +:+ s) (date_text b +:+ t)
  = match lex_compare (date_fields a) (date_fields b) with
    | Eq => String.compare s t
    | c => c
    end.
Proof.
  intros. unfold date_text. rewrite !append_assoc.
  rewrite zpad_compare by (simpl; lia).
  rewrite ?sep_app, compare_same_head.
  rewrite zpad_compare by (simpl; lia).
  rewrite ?sep_app, compare_same_head.
  rewrite zpad_compare by (simpl; lia).
  unfold date_fields. simpl lex_compare. split_compares.
Qed.

Lemma time_compare a b s t :
  0 <= hour a <= 23 -> 0 <= minute a <= 59 -> 0 <= second a <= 59 ->
  0 <= hour b <= 23 -> 0 <= minute b <= 59 -> 0 <= second b <= 59 ->
  String.compare (time_text a +:+ s) (time_text b +:+ t)
  = match lex_compare [hour a; minute a; second a]
            [hour b; minute b; second b] with
    | Eq => String.compare s t
    | c => c
    end.
Proof.
  intros. unfold time_text. rewrite !append_assoc.
  rewrite zpad_compare by (simpl; lia).
  rewrite ?sep_app, compare_same_head.
  rewrite zpad_compare by (simpl; lia).
  rewrite ?sep_app, compare_same_head.
  rewrite zpad_compare by (simpl; lia).
  simpl lex_compare. split_compares.
Qed.

Lemma fraction_compare x y :
  0 <= x <= 999999 -> 0 <= y <= 999999 ->
  String.compare (if x =? 0 then "" else "." +:+ zpad 6 x)
    (if y =? 0 then "" else "." +:+ zpad 6 y)
  = (x ?= y).
Proof.
  intros Hx Hy.
  destruct (Z.eqb_spec x 0) as [-> | Nx], (Z.eqb_spec y 0) as [-> | Ny].
  - reflexivity.
  - rewrite sep_app. change (String.compare "" (String ?c ?r)) with Lt.
    symmetry. apply Z.compare_lt_iff. lia.
  - rewrite sep_app. change (String.compare (String ?c ?r) "") with Gt.
    symmetry. apply Z.compare_gt_iff. lia.
  - rewrite ?sep_app, compare_same_head.
    apply zpad_compare_end; simpl; lia.
Qed.

(** The ISO texts of two date-times compare as the date-times do. *)
Lemma isoformat_compare a b :
  valid_datetime a -> valid_datetime b ->
  String.compare (isoformat a) (isoformat b) = datetime_compare a b.
Proof.
  intros (? & ? & ? & ? & ? & ? & ?) (? & ? & ? & ? & ? & ? & ?).
  unfold isoformat.
  rewrite date_compare by lia.
  rewrite ?sep_app, compare_same_head.
  rewrite time_compare by lia.
  rewrite fraction_compare by lia.
  unfold datetime_compare, datetime_fields, date_fields.
  simpl lex_compare. split_compares.
Qed.

Lemma isoformat_leb a b :
  valid_datetime a -> valid_datetime b ->
  String.leb (isoformat a) (isoformat b) = datetime_leb a b.
Proof.
  intros Ha Hb. unfold String.leb, datetime_leb.
  by rewrite isoformat_compare.
Qed.

(** SQLite's text of the cutoff against the ISO text of a sample: the
    dates decide, and on the same date the blank sorts before the [T]. *)
Lemma cutoff_compare c d :
  valid_datetime c -> valid_datetime d ->
  String.ltb (sqlite_text c) (isoformat d)
  = match lex_compare (date_fields c) (date_fields d) with
    | Gt => false
    | _ => true
    end.
Proof.
  intros (? & ? & ? & ? & ? & ? & ?) (? & ? & ? & ? & ? & ? & ?).
  unfold String.ltb, sqlite_text, isoformat.
  replace (year c <? 0) with false by (symmetry; apply Z.ltb_ge; lia).
  assert (zpad 4 (year c) +:+ "-" +:+ zpad 2 (month c) +:+ "-"
          +:+ zpad 2 (day c) +:+ " " +:+ time_text c
          = date_text c +:+ (" " +:+ time_text c)) as ->
    by (unfold date_text; by rewrite !append_assoc).
  rewrite date_compare by lia.
  rewrite ?sep_app.
  by destruct (lex_compare (date_fields c) (date_fields d)).
Qed.

Lemma lex_compare_date a b :
  datetime_compare a b <> Gt ->
  lex_compare (date_fields a) (date_fields b) <> Gt.
Proof.
  unfold datetime_compare, datetime_fields, date_fields. simpl.
  destruct (year a ?= year b); try done.
  destruct (month a ?= month b); try done.
  destruct (day a ?= day b); done.
Qed.

(** *** ORDER BY *)

(** [r1] may stand before [r2]: its timestamp text is not the smaller. *)
Definition newer (r1 r2 : Row) : Prop :=
  String.leb (row_timestamp r2) (row_timestamp r1) = true.

Lemma leb_trans a b c :
  String.leb a b = true -> String.leb b c = true -> String.leb a c = true.
Proof.
  intros H1%Is_true_true H2%Is_true_true. apply Is_true_true.
  exact (transitivity (R := String.le) H1 H2).
Qed.

Lemma insert_desc_perm r l :
  Permutation (MetricsCollector.insert_desc r l) (r :: l).
Proof.
  induction l as [| x l IH]; simpl; [done |].
  destruct (String.leb (row_timestamp x) (row_timestamp r)); [done |].
  rewrite IH. apply perm_swap.
Qed.

Lemma order_by_perm l :
  Permutation (MetricsCollector.order_by_timestamp_desc l) l.
Proof.
  induction l as [| x l IH]; simpl; [done |].
  rewrite insert_desc_perm. by constructor.
Qed.

Lemma insert_desc_sorted r l :
  StronglySorted newer l ->
  StronglySorted newer (MetricsCollector.insert_desc r l).
Proof.
  induction 1 as [| x l Hs IH Hx]; simpl.
  - constructor; constructor.
  - destruct (String.leb (row_timestamp x) (row_timestamp r)) eqn:E.
    + constructor; [by constructor |].
      constructor; [exact E |].
      eapply Forall_impl; [exact Hx |].
      intros y Hy. unfold newer in *. by eapply leb_trans.
    + constructor; [exact IH |].
      apply (Permutation_Forall (x := r :: l));
        [symmetry; apply insert_desc_perm |].
      constructor; [| exact Hx].
      unfold newer. destruct (String.leb_total (row_timestamp x)
                                (row_timestamp r)); congruence.
Qed.

Lemma order_by_sorted l :
  StronglySorted newer (MetricsCollector.order_by_timestamp_desc l).
Proof.
  induction l as [| x l IH]; simpl; [constructor |].
  by apply insert_desc_sorted.
Qed.

Lemma StronglySorted_weaken {A} (R R' : A -> A -> Prop) l :
  (forall x y, R x y -> R' x y) -> StronglySorted R l -> StronglySorted R' l.
Proof.
  intros HR. induction 1 as [| x l Hs IH Hx]; constructor; [exact IH |].
  eapply Forall_impl; [exact Hx | auto].
Qed.

(** *** The query *)

(** The row [r] holds the sample time [d]. *)
Definition stored_as (r : Row) (d : datetime) : Prop :=
  valid_datetime d /\ row_timestamp r = isoformat d.

Lemma sqlite_in_range_valid t : valid_datetime t -> sqlite_in_range t = true.
Proof.
  intros (Hy & _). destruct t as [y mo d h mi s us]. simpl in Hy.
  unfold sqlite_in_range, datetime_leb, datetime_compare, datetime_fields.
  cbn [year month day hour minute second microsecond lex_compare].
  assert (-4713 < y) as H by lia.
  apply Z.compare_lt_iff in H. rewrite H. simpl. apply Z.leb_le. lia.
Qed.

Lemma sqlite_datetime_valid now hours :
  0 <= hours -> valid_datetime (hours_before now hours) ->
  sqlite_datetime now hours = Some (sqlite_text (hours_before now hours)).
Proof.
  intros Hh Hv. unfold sqlite_datetime.
  replace (hours <? 0) with false by (symmetry; apply Z.ltb_ge; lia).
  by rewrite (sqlite_in_range_valid _ Hv).
Qed.

Lemma selected_spec metric_name c r d :
  valid_datetime c -> stored_as r d ->
  MetricsCollector.selected metric_name (sqlite_text c) r = true <->
  row_metric_name r = metric_name /\
  lex_compare (date_fields c) (date_fields d) <> Gt.
Proof.
  intros Hc [Hd Hr]. unfold MetricsCollector.selected.
  rewrite andb_true_iff, String.eqb_eq, Hr, cutoff_compare by done.
  destruct (lex_compare (date_fields c) (date_fields d));
    intuition congruence.
Qed.

(** C2, as the code has it: for a positive number of hours whose start
    instant [now - hours] is a date the store can hold and a store filled
    by [store_metrics], [get_metrics] returns stored rows only, each at
    most as often as it is stored and all with the metric name asked for;
    it returns every stored sample of that name stamped at or after
    [now - hours], those stamped after [now] included; it returns no
    sample dated on a day before the day of [now - hours]; and the rows
    come most recent first. *)
Theorem c2_get_metrics (now : datetime) (metric_name : string) (hours : Z)
    (self : MetricsCollector.t) :
  0 < hours ->
  valid_datetime (hours_before now hours) ->
  (forall r, In r (MetricsCollector.rows self) -> exists d, stored_as r d) ->
  let cutoff := hours_before now hours in
  let result := MetricsCollector.get_metrics now metric_name hours self in
  (exists keep : Row -> bool,
     Permutation result (List.filter keep (MetricsCollector.rows self))) /\
  (forall r,
     In r result ->
     In r (MetricsCollector.rows self) /\ row_metric_name r = metric_name) /\
  (forall r d,
     In r (MetricsCollector.rows self) ->
     row_metric_name r = metric_name -> stored_as r d ->
     datetime_leb cutoff d = true -> In r result) /\
  (forall r d,
     In r result -> stored_as r d ->
     lex_compare (date_fields d) (date_fields cutoff) <> Lt) /\
  StronglySorted
    (fun r1 r2 =>
       forall d1 d2,
         stored_as r1 d1 -> stored_as r2 d2 -> datetime_leb d2 d1 = true)
    result.
Proof.
  intros Hh Hv Hs.
  pose proof (sqlite_datetime_valid now hours (Z.lt_le_incl _ _ Hh) Hv)
    as Hsql.
  cbv zeta. unfold MetricsCollector.get_metrics. rewrite Hsql. clear Hsql.
  revert Hv. generalize (hours_before now hours). intros cutoff Hv.
  set (sel := MetricsCollector.selected metric_name (sqlite_text cutoff)).
  pose proof (order_by_perm (List.filter sel (MetricsCollector.rows self)))
    as Hp.
  assert (forall r,
            In r (MetricsCollector.order_by_timestamp_desc
                    (List.filter sel (MetricsCollector.rows self))) <->
            In r (MetricsCollector.rows self) /\ sel r = true) as Hin.
  { intros r. rewrite <- filter_In. split; apply Permutation_in; [done |].
    by symmetry. }
  split; [by exists sel |]. split; [| split; [| split]].
  - intros r [Hr Hsel]%Hin. split; [done |].
    destruct (Hs r Hr) as [d Hd].
    exact (proj1 (proj1 (selected_spec metric_name cutoff r d Hv Hd) Hsel)).
  - intros r d Hr Hn Hd Hle. apply Hin. split; [done |].
    apply (selected_spec metric_name cutoff r d Hv Hd). split; [done |].
    apply lex_compare_date. unfold datetime_leb in Hle.
    by destruct (datetime_compare cutoff d).
  - intros r d [Hr Hsel]%Hin Hd.
    pose proof (proj2 (proj1 (selected_spec metric_name cutoff r d Hv Hd)
                         Hsel)) as Hc.
    rewrite (lex_compare_antisym (date_fields cutoff) (date_fields d)).
    by destruct (lex_compare (date_fields cutoff) (date_fields d)).
  - eapply StronglySorted_weaken; [| apply order_by_sorted].
    intros r1 r2 Hn d1 d2 [Hv1 E1] [Hv2 E2]. unfold newer in Hn.
    by rewrite E1, E2, isoformat_leb in Hn.
Qed.

(** *** A store to query *)

(** The clock of the query, and samples stamped two days before it, on
    the day of [now - 24 hours] but hours before that instant, inside the
    last 24 hours, and two hours after it. *)
Definition query_time : datetime := mk_datetime 2024 1 3 23 0 0 0.
Definition two_days_before : datetime := mk_datetime 2024 1 1 8 0 0 0.
Definition early_that_day : datetime := mk_datetime 2024 1 2 0 30 0 0.
Definition in_window : datetime := mk_datetime 2024 1 3 12 0 0 500000.
Definition two_hours_later : datetime := mk_datetime 2024 1 4 1 0 0 0.

(** The table after the samples of these four instants have been stored:
    four of "system.load_avg" and one of "system.memory_usage". *)
Definition sample_store : MetricsCollector.t :=
  MetricsCollector.mk
    [mk_row 1 (isoformat two_days_before) "system.load_avg" 0.5 "count" None;
     mk_row 2 (isoformat early_that_day) "system.load_avg" 0.75 "count" None;
     mk_row 3 (isoformat in_window) "system.load_avg" 1.5 "count" None;
     mk_row 4 (isoformat in_window) "system.memory_usage" 40 "percent" None;
     mk_row 5 (isoformat two_hours_later) "system.load_avg" 2.5 "count" None]
    5 false None.

Lemma sample_store_stored r :
  In r (MetricsCollector.rows sample_store) -> exists d, stored_as r d.
Proof.
  intros [<- | [<- | [<- | [<- | [<- | []]]]]];
    [exists two_days_before | exists early_that_day | exists in_window
     | exists in_window | exists two_hours_later];
    (split; [vm_compute; repeat split; congruence | reflexivity]).
Qed.

Lemma c2_get_metrics_witness :
  In (mk_row 3 "2024-01-03T12:00:00.500000" "system.load_avg" 1.5 "count" None)
     (MetricsCollector.get_metrics query_time "system.load_avg" 24
        sample_store).
Proof.
  refine (proj1 (proj2 (proj2
            (c2_get_metrics query_time "system.load_avg" 24 sample_store
               _ _ sample_store_stored)))
            (mk_row 3 "2024-01-03T12:00:00.500000" "system.load_avg" 1.5
               "count" None)
            in_window _ eq_refl _ eq_refl).
  - lia.
  - vm_compute. repeat split; congruence.
  - vm_compute. tauto.
  - split; [| reflexivity]. vm_compute. repeat split; congruence.
Defined.

(** C2, as the claim states it, fails: at [query_time] the query for the
    last 24 hours returns the sample stamped two hours after [query_time],
    which lies outside the interval from [now - 24 hours] to [now]. *)
Lemma c2_later_sample_returned :
  datetime_leb two_hours_later query_time = false /\
  In (mk_row 5 (isoformat two_hours_later) "system.load_avg" 2.5 "count" None)
     (MetricsCollector.rows sample_store) /\
  In (mk_row 5 (isoformat two_hours_later) "system.load_avg" 2.5 "count" None)
     (MetricsCollector.get_metrics query_time "system.load_avg" 24
        sample_store).
Proof.
  split; [reflexivity |]. split; vm_compute; tauto.
Qed.

(** The text comparison at work: the cutoff of the query is
    2024-01-02 23:00:00, and the sample stamped 2024-01-02T00:30:00, more
    than 22 hours before it, is returned as well, while the sample of the
    day before is not. *)
Lemma same_day_sample_returned :
  sqlite_datetime query_time 24 = Some "2024-01-02 23:00:00" /\
  datetime_ltb early_that_day (hours_before query_time 24) = true /\
  MetricsCollector.get_metrics query_time "system.load_avg" 24 sample_store
  = [mk_row 5 "2024-01-04T01:00:00" "system.load_avg" 2.5 "count" None;
     mk_row 3 "2024-01-03T12:00:00.500000" "system.load_avg" 1.5 "count" None;
     mk_row 2 "2024-01-02T00:30:00" "system.load_avg" 0.75 "count" None].
Proof. repeat split; reflexivity. Qed.

(** * Further properties of the metrics collector *)

Section store_facts.

Variable json_dumps : list (string * string) -> string.

(** The row a sample is stored as under the id [i]. *)
Definition stored_row (i : Z) (m : SystemMetric) : Row :=
  mk_row i (isoformat (timestamp m)) (metric_name m)
    (if PrimFloat.eqb (metric_value m) 0 then 0%float else metric_value m)
    (unit m) (MetricsCollector.tags_json json_dumps (tags m)).

Definition is_number (m : SystemMetric) : Prop :=
  PrimFloat.is_nan (metric_value m) = false.

Lemma insert_all_numbers metrics self :
  Forall is_number metrics ->
  MetricsCollector.insert_all json_dumps metrics self
  = Ok (MetricsCollector.mk
          (MetricsCollector.rows self
           ++ imap (fun i m =>
                      stored_row
                        (MetricsCollector.last_id self + 1 + Z.of_nat i) m)
                   metrics)
          (MetricsCollector.last_id self + Z.of_nat (length metrics))
          (MetricsCollector.running self) (MetricsCollector.thread self)).
Proof.
  intros H. revert self. induction H as [| m ms Hm Hms IH]; intros self.
  - simpl. rewrite app_nil_r, Z.add_0_r. by destruct self.
  - cbn [MetricsCollector.insert_all]. unfold MetricsCollector.insert at 1.
    unfold MetricsCollector.sqlite_real. rewrite Hm.
    assert (forall x : float,
              (if PrimFloat.eqb x 0 then Some 0%float else Some x)
              = Some (if PrimFloat.eqb x 0 then 0%float else x)) as ->
      by (intros x; by destruct (PrimFloat.eqb x 0)).
    cbv [mbind outcome_bind]. rewrite IH. simpl.
    rewrite <- app_assoc. simpl. f_equal. f_equal; [| lia].
    f_equal. rewrite Z.add_0_r. f_equal.
    apply imap_ext. intros i x _. simpl. f_equal. lia.
Qed.

Lemma insert_all_nan metrics self :
  Exists (fun m => PrimFloat.is_nan (metric_value m) = true) metrics ->
  MetricsCollector.insert_all json_dumps metrics self
  = Raise (Exception "IntegrityError"
             "NOT NULL constraint failed: metrics.metric_value").
Proof.
  intros H. revert self. induction metrics as [| m ms IH]; intros self.
  - by apply Exists_nil in H.
  - cbn [MetricsCollector.insert_all]. unfold MetricsCollector.insert at 1.
    unfold MetricsCollector.sqlite_real.
    destruct (PrimFloat.is_nan (metric_value m)) eqn:Em; [done |].
    apply Exists_cons in H as [H | H]; [congruence |].
    destruct (PrimFloat.eqb (metric_value m) 0);
      cbv [mbind outcome_bind]; by apply IH.
Qed.

(** Storing batch after batch, starting from the empty table. *)
Definition store_all (batches : list (list SystemMetric))
  : MetricsCollector.t :=
  fold_left (fun s batch =>
               (MetricsCollector.store_metrics json_dumps batch s).1)
    batches MetricsCollector.init.

Lemma nan_or_numbers (metrics : list SystemMetric) :
  Forall is_number metrics
  \/ Exists (fun m => PrimFloat.is_nan (metric_value m) = true) metrics.
Proof.
  induction metrics as [| m ms [IH | IH]].
  - left. constructor.
  - destruct (PrimFloat.is_nan (metric_value m)) eqn:Em.
    + right. by apply Exists_cons_hd.
    + left. by constructor.
  - right. by apply Exists_cons_tl.
Qed.

(** The ids of a table are 1, 2, 3, ... in insertion order. *)
Definition numbered (s : MetricsCollector.t) : Prop :=
  map id (MetricsCollector.rows s)
  = map Z.of_nat (seq 1 (length (MetricsCollector.rows s))) /\
  MetricsCollector.last_id s = Z.of_nat (length (MetricsCollector.rows s)).

Lemma imap_ids batch (base : Z) (n : nat) :
  base = Z.of_nat n ->
  map id (imap (fun i m => stored_row (base + 1 + Z.of_nat i) m) batch)
  = map Z.of_nat (seq (S n) (length batch)).
Proof.
  revert base n. induction batch as [| m batch IH]; intros base n Hb;
    [done |].
  simpl. f_equal; [lia |].
  rewrite <- (IH (base + 1) (S n)) by lia.
  f_equal. apply imap_ext. intros i x _. simpl. f_equal. lia.
Qed.

Lemma store_metrics_numbered metrics s :
  numbered s ->
  numbered (MetricsCollector.store_metrics json_dumps metrics s).1.
Proof.
  intros [Hids Hlast]. unfold MetricsCollector.store_metrics.
  destruct (nan_or_numbers metrics) as [H | H].
  - rewrite (insert_all_numbers _ _ H). split; simpl.
    + rewrite length_app, length_imap, map_app, seq_app, map_app, Hids.
      f_equal. by apply imap_ids.
    + rewrite length_app, length_imap. lia.
  - by rewrite (insert_all_nan _ _ H).
Qed.

Lemma store_all_numbered batches : numbered (store_all batches).
Proof.
  unfold store_all.
  assert (numbered MetricsCollector.init) as H by (by split).
  revert H. generalize MetricsCollector.init.
  induction batches as [| batch batches IH]; intros s Hs; [done |].
  simpl. apply IH. by apply store_metrics_numbered.
Qed.

(** X15: [store_metrics] stores a batch whole or not at all. When no
    value is NaN, the rows already stored stay as they are and where
    they are, the samples follow in their order, one row each, with the
    next consecutive ids, a negative zero stored as zero, and nothing is
    logged. When a value is NaN the table is left exactly as it was and
    the error is logged. The running flag and the thread are not
    touched. Hence in a table filled batch by batch the ids are 1, 2, 3,
    ... in insertion order, no two rows sharing one. *)
Theorem store_metrics_appends (metrics : list SystemMetric)
    (self : MetricsCollector.t) (batches : list (list SystemMetric)) :
  let after := MetricsCollector.store_metrics json_dumps metrics self in
  (Forall is_number metrics ->
   after
   = (MetricsCollector.mk
        (MetricsCollector.rows self
         ++ imap (fun i m =>
                    stored_row
                      (MetricsCollector.last_id self + 1 + Z.of_nat i) m)
                 metrics)
        (MetricsCollector.last_id self + Z.of_nat (length metrics))
        (MetricsCollector.running self) (MetricsCollector.thread self),
      None)) /\
  (Exists (fun m => PrimFloat.is_nan (metric_value m) = true) metrics ->
   after
   = (self,
      Some ("Metric storage failed: "
            +:+ "NOT NULL constraint failed: metrics.metric_value"))) /\
  MetricsCollector.running after.1 = MetricsCollector.running self /\
  MetricsCollector.thread after.1 = MetricsCollector.thread self /\
  map id (MetricsCollector.rows (store_all batches))
  = map Z.of_nat (seq 1 (length (MetricsCollector.rows (store_all batches))))
  /\
  NoDup (map id (MetricsCollector.rows (store_all batches))).
Proof.
  cbv zeta. unfold MetricsCollector.store_metrics.
  split; [| split; [| split; [| split; [| split]]]].
  - intros H. by rewrite (insert_all_numbers _ _ H).
  - intros H. by rewrite (insert_all_nan _ _ H).
  - destruct (nan_or_numbers metrics) as [H | H];
      [by rewrite (insert_all_numbers _ _ H)
      | by rewrite (insert_all_nan _ _ H)].
  - destruct (nan_or_numbers metrics) as [H | H];
      [by rewrite (insert_all_numbers _ _ H)
      | by rewrite (insert_all_nan _ _ H)].
  - apply store_all_numbered.
  - rewrite (proj1 (store_all_numbered batches)).
    apply NoDup_fmap_2; [intros ? ? ?; lia | apply NoDup_seq].
Qed.

(** X16: a sample stored in a batch without NaN is found again: a query
    for its metric name over a window that starts at or before its
    timestamp, the start being reckoned on the clock SQLite reads,
    returns a row with its timestamp text, its unit and its value, zero
    standing for a negative zero. *)
Theorem stored_sample_is_returned (now : datetime) (hours : Z)
    (metrics : list SystemMetric) (self : MetricsCollector.t)
    (m : SystemMetric) :
  0 <= hours ->
  valid_datetime (hours_before now hours) ->
  Forall is_number metrics ->
  In m metrics ->
  valid_datetime (timestamp m) ->
  datetime_leb (hours_before now hours) (timestamp m) = true ->
  exists r,
    In r (MetricsCollector.get_metrics now (metric_name m) hours
            (MetricsCollector.store_metrics json_dumps metrics self).1) /\
    row_timestamp r = isoformat (timestamp m) /\
    row_metric_name r = metric_name m /\
    Some (row_metric_value r)
    = MetricsCollector.sqlite_real (metric_value m) /\
    row_unit r = unit m.
Proof.
  intros Hh Hv Hnum Hin Hvm Hle.
  unfold MetricsCollector.get_metrics, MetricsCollector.store_metrics.
  rewrite (sqlite_datetime_valid now hours Hh Hv).
  revert Hv Hle. generalize (hours_before now hours). intros cutoff Hv Hle.
  rewrite (insert_all_numbers _ _ Hnum). cbn [fst MetricsCollector.rows].
  pose proof (proj1 (Forall_forall _ _) Hnum m
                (proj2 (list_elem_of_In _ _) Hin)) as Hm.
  apply list_elem_of_In, list_elem_of_lookup in Hin as [i Hi].
  exists (stored_row (MetricsCollector.last_id self + 1 + Z.of_nat i) m).
  split; [| repeat split].
  - apply (Permutation_in _ (Permutation_sym (order_by_perm _))).
    apply filter_In. split.
    + apply in_or_app. right. apply list_elem_of_In, list_elem_of_lookup.
      exists i. by rewrite list_lookup_imap, Hi.
    + apply (selected_spec (metric_name m) cutoff _ (timestamp m) Hv);
        [by split |].
      split; [done |]. apply lex_compare_date. unfold datetime_leb in Hle.
      by destruct (datetime_compare cutoff (timestamp m)).
  - unfold MetricsCollector.sqlite_real, stored_row. cbn [row_metric_value].
    unfold is_number in Hm. rewrite Hm.
    by destruct (PrimFloat.eqb (metric_value m) 0).
Qed.

End store_facts.

Lemma stored_sample_is_returned_witness :
  exists r,
    In r (MetricsCollector.get_metrics query_time "system.load_avg" 24
            (MetricsCollector.store_metrics (fun _ => "{}")
               [load_sample in_window 1.5] sample_store).1) /\
    row_timestamp r = "2024-01-03T12:00:00.500000".
Proof.
  destruct (stored_sample_is_returned (fun _ => "{}") query_time 24
              [load_sample in_window 1.5] sample_store
              (load_sample in_window 1.5))
    as (r & Hin & Hts & _).
  - lia.
  - vm_compute. repeat split; congruence.
  - repeat constructor.
  - by left.
  - vm_compute. repeat split; congruence.
  - reflexivity.
  - exists r. split; [exact Hin | exact Hts].
Defined.

Lemma store_metrics_appends_witness :
  MetricsCollector.store_metrics (fun _ => "{}")
    [load_sample two_days_before 0.5; load_sample early_that_day 0.75;
     load_sample in_window 1.5; memory_sample in_window 40;
     load_sample two_hours_later 2.5]
    MetricsCollector.init
  = (sample_store, None).
Proof.
  refine (eq_trans (proj1 (store_metrics_appends (fun _ => "{}") _
                             MetricsCollector.init [])
                      _) _).
  - repeat constructor.
  - reflexivity.
Defined.


(** * main_config.py: environment overrides and validation *)

(** Python's truth value of what [json.load] or [os.getenv] can leave in
    a configuration field. *)
Definition truth (v : json) : bool :=
  match v with
  | JNull => false
  | JBool b => b
  | JInt n => negb (n =? 0)
  | JFloat x => negb (PrimFloat.eqb x 0)
  | JStr s => negb (String.eqb s "")
  | JList l => match l with [] => false | _ => true end
  | JDict kv => match kv with [] => false | _ => true end
  end.

(** The fields of [SystemConfig] that [load_from_env] and
    [validate_config] read or write; the values [load_config] put there
    come from a JSON file and may be of any type. *)
Record SystemConfig := mk_config {
  primary_domain : json;
  tiktok_app_id : json;
  tiktok_secret : json;
  openai_api_key : json;
  postgres_password : json;
  log_level : json
}.

(** [os.getenv(name)]: the value of the variable, or [None]. *)
Definition getenv (env : gmap string string) (var : string) : json :=
  match env !! var with
  | Some s => JStr s
  | None => JNull
  end.

Definition load_from_env (env : gmap string string) (self : SystemConfig)
  : SystemConfig :=
  mk_config
    (if truth (getenv env "GM_DOMAIN") then getenv env "GM_DOMAIN"
     else primary_domain self)
    (getenv env "TIKTOK_CLIENT_KEY")
    (getenv env "TIKTOK_CLIENT_SECRET")
    (getenv env "OPENAI_API_KEY")
    (getenv env "POSTGRES_PASSWORD")
    (if truth (getenv env "LOG_LEVEL") then getenv env "LOG_LEVEL"
     else log_level self).

(** The names collected in [missing]. *)
Definition missing_fields (self : SystemConfig) : list string :=
  (if truth (tiktok_app_id self) then [] else ["TIKTOK_CLIENT_KEY"])
  ++ (if truth (tiktok_secret self) then [] else ["TIKTOK_CLIENT_SECRET"])
  ++ (if truth (openai_api_key self) then [] else ["OPENAI_API_KEY"]).

(** [", ".join(names)] *)
Fixpoint join_comma (names : list string) : string :=
  match names with
  | [] => ""
  | [n] => n
  | n :: rest => n +:+ ", " +:+ join_comma rest
  end.

(** [validate_config]: the result, and the error it logs, if any. *)
Definition validate_config (self : SystemConfig) : bool * option string :=
  match missing_fields self with
  | [] => (true, None)
  | missing =>
      (false,
       Some ("Missing required configuration: " +:+ join_comma missing))
  end.

(** A variable that is set to a text which is not empty. *)
Definition is_set (env : gmap string string) (var : string) : Prop :=
  exists s, env !! var = Some s /\ s <> "".

Lemma truth_getenv env var : truth (getenv env var) = true <-> is_set env var.
Proof.
  unfold getenv, is_set. destruct (env !! var) as [s |]; simpl.
  - rewrite negb_true_iff. destruct (String.eqb_spec s ""); split;
      try done.
    + intros (s' & [= <-] & Hne). done.
    + intros _. by exists s.
  - split; [done | by intros (? & ? & ?)].
Qed.

(** The three credentials [validate_config] asks for, in its order. *)
Definition required_variables : list string :=
  ["TIKTOK_CLIENT_KEY"; "TIKTOK_CLIENT_SECRET"; "OPENAI_API_KEY"].

(** X17: after [load_from_env] the four secrets are what the environment
    holds, [None] for a variable that is not set, whatever the
    configuration file had put there; the domain and the log level keep
    their value unless their variable is set and not empty. The
    configuration is then valid exactly when the three credential
    variables are set and not empty; otherwise the error logged is
    "Missing required configuration: " followed by the names of those
    that are not, in the order client key, client secret, OpenAI key,
    separated by ", ". *)
Theorem env_decides_credentials (env : gmap string string)
    (self : SystemConfig) :
  let self' := load_from_env env self in
  tiktok_app_id self' = getenv env "TIKTOK_CLIENT_KEY" /\
  tiktok_secret self' = getenv env "TIKTOK_CLIENT_SECRET" /\
  openai_api_key self' = getenv env "OPENAI_API_KEY" /\
  postgres_password self' = getenv env "POSTGRES_PASSWORD" /\
  (~ is_set env "GM_DOMAIN" -> primary_domain self' = primary_domain self) /\
  (~ is_set env "LOG_LEVEL" -> log_level self' = log_level self) /\
  ((validate_config self').1 = true <->
   is_set env "TIKTOK_CLIENT_KEY" /\ is_set env "TIKTOK_CLIENT_SECRET" /\
   is_set env "OPENAI_API_KEY") /\
  (forall var,
     In var (missing_fields self') <->
     In var required_variables /\ ~ is_set env var) /\
  missing_fields self'
  = List.filter (fun var => negb (truth (getenv env var))) required_variables
  /\
  validate_config self'
  = match missing_fields self' with
    | [] => (true, None)
    | missing =>
        (false,
         Some ("Missing required configuration: " +:+ join_comma missing))
    end /\
  (~ is_set env "TIKTOK_CLIENT_KEY" -> ~ is_set env "TIKTOK_CLIENT_SECRET" ->
   ~ is_set env "OPENAI_API_KEY" ->
   validate_config self'
   = (false,
      Some ("Missing required configuration: "
            +:+ "TIKTOK_CLIENT_KEY, TIKTOK_CLIENT_SECRET, OPENAI_API_KEY"))).
Proof.
  assert (forall var, ~ is_set env var -> truth (getenv env var) = false)
    as Hunset.
  { intros var H. destruct (truth (getenv env var)) eqn:E; [| done].
    by apply truth_getenv in E. }
  cbv zeta.
  split; [done |]. split; [done |]. split; [done |]. split; [done |].
  split; [| split; [| split; [| split; [| split; [| split]]]]].
  - intros H. simpl. by rewrite (Hunset _ H).
  - intros H. simpl. by rewrite (Hunset _ H).
  - unfold validate_config, missing_fields. simpl.
    rewrite <- !truth_getenv.
    destruct (truth (getenv env "TIKTOK_CLIENT_KEY")),
      (truth (getenv env "TIKTOK_CLIENT_SECRET")),
      (truth (getenv env "OPENAI_API_KEY")); simpl; intuition congruence.
  - intros var. unfold missing_fields, required_variables. simpl.
    split.
    + intros H. rewrite <- truth_getenv.
      destruct (truth (getenv env "TIKTOK_CLIENT_KEY")) eqn:E1,
        (truth (getenv env "TIKTOK_CLIENT_SECRET")) eqn:E2,
        (truth (getenv env "OPENAI_API_KEY")) eqn:E3; simpl in H;
        intuition (subst; congruence).
    + intros [Hin Hset]. pose proof (Hunset _ Hset) as Hf.
      destruct Hin as [<- | [<- | [<- | []]]]; rewrite Hf; simpl.
      * by left.
      * destruct (truth (getenv env "TIKTOK_CLIENT_KEY")); simpl; tauto.
      * destruct (truth (getenv env "TIKTOK_CLIENT_KEY")),
          (truth (getenv env "TIKTOK_CLIENT_SECRET")); simpl; tauto.
  - unfold missing_fields, required_variables. simpl.
    by destruct (truth (getenv env "TIKTOK_CLIENT_KEY")),
      (truth (getenv env "TIKTOK_CLIENT_SECRET")),
      (truth (getenv env "OPENAI_API_KEY")).
  - reflexivity.
  - intros H1 H2 H3. unfold validate_config, missing_fields. simpl.
    by rewrite (Hunset _ H1), (Hunset _ H2), (Hunset _ H3).
Qed.

Lemma env_decides_credentials_witness :
  validate_config
    (load_from_env {[ "LOG_LEVEL" := "DEBUG" ]}
       (mk_config (JStr "example.org") (JStr "key-from-file")
          (JStr "secret-from-file") (JStr "sk-from-file") JNull
          (JStr "INFO")))
  = (false,
     Some ("Missing required configuration: "
           +:+ "TIKTOK_CLIENT_KEY, TIKTOK_CLIENT_SECRET, OPENAI_API_KEY")) /\
  primary_domain
    (load_from_env {[ "LOG_LEVEL" := "DEBUG" ]}
       (mk_config (JStr "example.org") (JStr "key-from-file")
          (JStr "secret-from-file") (JStr "sk-from-file") JNull
          (JStr "INFO")))
  = JStr "example.org".
Proof.
  pose proof (env_decides_credentials {[ "LOG_LEVEL" := "DEBUG" ]}
                (mk_config (JStr "example.org") (JStr "key-from-file")
                   (JStr "secret-from-file") (JStr "sk-from-file") JNull
                   (JStr "INFO")))
    as (_ & _ & _ & _ & Hdomain & _ & _ & _ & _ & _ & Hall).
  assert (forall var, var <> "LOG_LEVEL" ->
                      ~ is_set {[ "LOG_LEVEL" := "DEBUG" ]} var) as Hunset.
  { intros var Hne (s & Hs & _).
    rewrite lookup_singleton_ne in Hs by done. discriminate Hs. }
  split.
  - apply Hall; apply Hunset; discriminate.
  - apply Hdomain, Hunset. discriminate.
Defined.


(** * logger.py: the two formatters and the sinks of the worker *)

(** A value of a [details] dictionary of the typed calls. *)
Inductive pyvalue :=
| PStr (s : string)
| PInt (n : Z)
| PFloat (x : float)
| PBool (b : bool).

(** A log record as the formatters see it; [created] is the creation
    time as [datetime.fromtimestamp] gives it. The record carries no
    exception information. *)
Record FullRecord := mk_full {
  created : datetime;
  full_name : string;
  full_levelname : string;
  full_message : string;
  full_details : option (list (string * pyvalue));
  user_id : option string;
  session_id : option string
}.

(** [LogEntry], the object [StructuredFormatter] serialises. *)
Record LogEntry := mk_entry {
  entry_timestamp : string;
  entry_level : string;
  entry_module : string;
  entry_message : string;
  entry_details : option (list (string * pyvalue));
  entry_user_id : option string;
  entry_session_id : option string
}.

(** [StructuredFormatter.format], before [json.dumps]. *)
Definition structured_format (record : FullRecord) : LogEntry :=
  mk_entry (isoformat (created record)) (full_levelname record)
    (full_name record) (full_message record) (full_details record)
    (user_id record) (session_id record).

Definition escape : string := String (ascii_of_nat 27) "".

Definition COLORS : list (string * string) :=
  [("DEBUG", escape +:+ "[36m"); ("INFO", escape +:+ "[32m");
   ("WARNING", escape +:+ "[33m"); ("ERROR", escape +:+ "[31m");
   ("CRITICAL", escape +:+ "[35m")].

Definition RESET : string := escape +:+ "[0m".

(** [self.COLORS.get(record.levelname, self.RESET)] *)
Definition color_of (levelname : string) : string :=
  match assoc levelname COLORS with
  | Some color => color
  | None => RESET
  end.

Section formatters.

(** [Formatter.formatTime] *)
Variable asctime : datetime -> string.

(** [ColoredFormatter.format]: the record with its [levelname] replaced,
    and the line [Formatter.format] renders from it with
    ['%(asctime)s [%(levelname)s] %(name)s: %(message)s']. *)
Definition colored_format (record : FullRecord) : FullRecord * string :=
  let levelname :=
    color_of (full_levelname record) +:+ full_levelname record +:+ RESET in
  let record' :=
    mk_full (created record) (full_name record) levelname
      (full_message record) (full_details record) (user_id record)
      (session_id record) in
  (record',
   asctime (created record') +:+ " [" +:+ full_levelname record' +:+ "] "
   +:+ full_name record' +:+ ": " +:+ full_message record').

(** What a sink is handed to write. *)
Inductive written :=
| ToFile (entry : LogEntry)
| ToConsole (line : string).

(** [for handler in self.handlers: handler.emit(record)] on the one
    record object all handlers share. *)
Fixpoint fan_out (sinks : list sink) (record : FullRecord)
  : list written * FullRecord :=
  match sinks with
  | [] => ([], record)
  | FileSink :: rest =>
      let '(out, record') := fan_out rest record in
      (ToFile (structured_format record) :: out, record')
  | ConsoleSink :: rest =>
      let '(record1, line) := colored_format record in
      let '(out, record') := fan_out rest record1 in
      (ToConsole line :: out, record')
  end.

Lemma color_starts_with_escape levelname :
  exists rest, color_of levelname = String (ascii_of_nat 27) rest.
Proof.
  unfold color_of, COLORS. cbn [assoc].
  repeat match goal with
         | |- context [String.eqb ?a ?b] => destruct (String.eqb a b)
         end; eexists; reflexivity.
Qed.

Lemma colored_name_unknown levelname :
  color_of (color_of levelname +:+ levelname +:+ RESET) = RESET.
Proof.
  destruct (color_starts_with_escape levelname) as [rest ->].
  rewrite app_cons. reflexivity.
Qed.

(** X19: whichever sinks are enabled, the entry written to the file
    carries the level name the record was logged with, because the file
    handler is served before the console handler replaces the level name
    of the shared record by its coloured form; the console line shows the
    coloured form. Formatting a record for the console a second time
    finds no colour for the coloured name and wraps it in reset codes. *)
Theorem file_level_is_plain (enable_file enable_console : bool)
    (record : FullRecord) :
  let result := fan_out (setup_sinks enable_file enable_console) record in
  (enable_file = true ->
   exists rest,
     result.1 = ToFile (structured_format record) :: rest /\
     entry_level (structured_format record) = full_levelname record) /\
  (enable_console = true ->
   In (ToConsole (colored_format record).2) result.1 /\
   full_levelname result.2
   = color_of (full_levelname record) +:+ full_levelname record +:+ RESET) /\
  (enable_console = false -> result.2 = record) /\
  full_levelname (colored_format (colored_format record).1).1
  = RESET +:+ full_levelname (colored_format record).1 +:+ RESET.
Proof.
  assert (full_levelname (colored_format (colored_format record).1).1
          = RESET +:+ full_levelname (colored_format record).1 +:+ RESET)
    as Htwice.
  { unfold colored_format. cbn [fst full_levelname].
    by rewrite colored_name_unknown. }
  cbv zeta. split; [| split; [| split; [| exact Htwice]]].
  - intros ->. destruct enable_console; cbn; eauto.
  - intros ->. destruct enable_file; cbn; auto.
  - intros ->. by destruct enable_file.
Qed.

End formatters.

Lemma file_level_is_plain_witness :
  (fan_out (fun _ => "2024-01-01 10:05:00,250") (setup_sinks true true)
     (mk_full failed_at "metrics" "ERROR" "Metric storage failed" None None
        None)).1
  = [ToFile (mk_entry "2024-01-01T10:05:00.250000" "ERROR" "metrics"
               "Metric storage failed" None None None);
     ToConsole ("2024-01-01 10:05:00,250 [" +:+ escape +:+ "[31mERROR"
                +:+ escape +:+ "[0m] metrics: Metric storage failed")].
Proof.
  pose proof (file_level_is_plain (fun _ => "2024-01-01 10:05:00,250")
                true true
                (mk_full failed_at "metrics" "ERROR" "Metric storage failed"
                   None None None)) as H.
  destruct H as [H _]. destruct (H eq_refl) as (rest & _ & _).
  reflexivity.
Defined.
